(** * Sprite-sheet description tool: a shallow embedding and its properties

    The development follows
    [packages/moxijs-examples/scripts/update_spritesheet_descriptions.py].

    Conventions of the embedding.
    - Python [str] values are [string]; the frame names of the sheet are ASCII,
      and the case mappings and character classes below are the ASCII ones.
    - Python [int] is [Z]; Python [float] is the primitive binary64 [float],
      so every division and comparison rounds as the interpreter's does.  A
      float division by zero, which Python refuses, cannot happen on channel
      means, which lie in 0..255; [classify_color_checked] keeps that error
      for arbitrary triples.
    - A Python [dict] is an association list in insertion order.
    - An exception is the [None] of an [option]. *)

From Stdlib Require Import Bool List ZArith Lia Ascii String Sorted Permutation.
From Stdlib Require Import Decimal DecimalFacts DecimalString DecimalZ DecimalPos.
From Stdlib Require Import Floats.
Import ListNotations.

Set Warnings "-inexact-float,-register-all".
Local Open Scope string_scope.

(** ** Python string primitives used by the script *)

Module Py.

Definition code (c : ascii) : nat := nat_of_ascii c.

Definition between (lo hi : nat) (c : ascii) : bool :=
  Nat.leb lo (code c) && Nat.leb (code c) hi.

Definition is_digit : ascii -> bool := between 48 57.
Definition is_upper : ascii -> bool := between 65 90.
Definition is_lower : ascii -> bool := between 97 122.
Definition is_cased (c : ascii) : bool := is_upper c || is_lower c.

(** [str.isspace] on ASCII: TAB..CR, FS..US and the blank. *)
Definition is_space (c : ascii) : bool :=
  between 9 13 c || between 28 32 c.

Definition lower_char (c : ascii) : ascii :=
  if is_upper c then ascii_of_nat (code c + 32) else c.

Definition upper_char (c : ascii) : ascii :=
  if is_lower c then ascii_of_nat (code c - 32) else c.

Fixpoint map_chars (f : ascii -> ascii) (s : string) : string :=
  match s with
  | EmptyString => EmptyString
  | String c r => String (f c) (map_chars f r)
  end.

(** [s.lower()] and [s.upper()]. *)
Definition lower : string -> string := map_chars lower_char.
Definition upper : string -> string := map_chars upper_char.

(** [s.title()]: a cased character is upper-cased when the one before it is
    not cased, and lower-cased otherwise. *)
Fixpoint title_from (prev_cased : bool) (s : string) : string :=
  match s with
  | EmptyString => EmptyString
  | String c r =>
      if is_cased c
      then String (if prev_cased then lower_char c else upper_char c)
                  (title_from true r)
      else String c (title_from false r)
  end.

Definition title : string -> string := title_from false.

(** [s.startswith(p)]. *)
Definition startswith (s p : string) : bool := String.prefix p s.

(** [s[n:]]. *)
Fixpoint drop (n : nat) (s : string) : string :=
  match n, s with
  | O, _ => s
  | S _, EmptyString => EmptyString
  | S m, String _ r => drop m r
  end.

(** [sub in s]. *)
Fixpoint contains (sub s : string) : bool :=
  String.prefix sub s ||
  match s with
  | EmptyString => false
  | String _ r => contains sub r
  end.

(** [s.replace(old, new)]: the occurrences of [old] are replaced from the
    left and do not overlap; [skip] counts the characters of an occurrence
    still to be passed over.  With an empty [old], [new] is put before every
    character and at the end. *)
Fixpoint replace_from (old new : string) (skip : nat) (s : string) : string :=
  match s with
  | EmptyString =>
      match old with EmptyString => new | _ => EmptyString end
  | String c r =>
      match skip with
      | S k => replace_from old new k r
      | O =>
          match old with
          | EmptyString => new ++ String c (replace_from old new 0 r)
          | _ =>
              if String.prefix old s
              then new ++ replace_from old new (String.length old - 1) r
              else String c (replace_from old new 0 r)
          end
      end
  end.

Definition replace (old new s : string) : string := replace_from old new 0 s.

(** [s.lstrip()], [s.rstrip()], [s.strip()]. *)
Fixpoint lstrip (s : string) : string :=
  match s with
  | EmptyString => EmptyString
  | String c r => if is_space c then lstrip r else s
  end.

Fixpoint rstrip (s : string) : string :=
  match s with
  | EmptyString => EmptyString
  | String c r =>
      match rstrip r with
      | EmptyString => if is_space c then EmptyString else String c EmptyString
      | t => String c t
      end
  end.

Definition strip (s : string) : string := lstrip (rstrip s).

(** [s.split(sep)] for a one-character separator: never an empty list. *)
Fixpoint split (sep : ascii) (s : string) : list string :=
  match s with
  | EmptyString => [EmptyString]
  | String c r =>
      if Ascii.eqb c sep then EmptyString :: split sep r
      else match split sep r with
           | p :: ps => String c p :: ps
           | [] => [String c EmptyString]
           end
  end.

(** [s.rsplit(sep, 1)[0]]: what stands before the last separator, or all of
    [s] when there is none. *)
Fixpoint rsplit1_head (sep : ascii) (s : string) : string :=
  match s with
  | EmptyString => EmptyString
  | String c r =>
      if Ascii.eqb c sep && negb (contains (String sep EmptyString) r)
      then EmptyString
      else String c (rsplit1_head sep r)
  end.

(** Every character of [s] satisfies [p]. *)
Fixpoint all_chars (p : ascii -> bool) (s : string) : bool :=
  match s with
  | EmptyString => true
  | String c r => p c && all_chars p r
  end.

(** [sep.join(filter(None, parts))]. *)
Definition nonempty (s : string) : bool :=
  match s with EmptyString => false | _ => true end.

Definition join_filtered (sep : string) (parts : list string) : string :=
  String.concat sep (filter nonempty parts).

(** The regular expression [\d+$].  Without the MULTILINE flag [$] matches at
    the very end and also just before a line feed that ends the string, so a
    final line feed is set aside first.  [split_trailing_digits] cuts a
    string into what stands before its longest run of final digits, and that
    run. *)
Fixpoint split_trailing_digits (s : string) : string * string :=
  match s with
  | EmptyString => (EmptyString, EmptyString)
  | String c r =>
      match split_trailing_digits r with
      | (EmptyString, d) =>
          if is_digit c then (EmptyString, String c d)
          else (String c EmptyString, d)
      | (h, d) => (String c h, d)
      end
  end.

Definition LF : ascii := ascii_of_nat 10.

Fixpoint chomp_lf (s : string) : string * string :=
  match s with
  | EmptyString => (EmptyString, EmptyString)
  | String c EmptyString =>
      if Ascii.eqb c LF then (EmptyString, s) else (s, EmptyString)
  | String c r => let (h, t) := chomp_lf r in (String c h, t)
  end.

(** The match of [\d+$] in [s], as (text before, digits, text after). *)
Definition match_trailing_digits (s : string)
  : option (string * string * string) :=
  let (body, tail) := chomp_lf s in
  match split_trailing_digits body with
  | (_, EmptyString) => None
  | (h, d) => Some (h, d, tail)
  end.

(** [re.sub(r"\d+$", "", s)]. *)
Definition sub_trailing_digits (s : string) : string :=
  match match_trailing_digits s with
  | Some (h, _, tail) => h ++ tail
  | None => s
  end.

(** [re.search(r"(\d+)$", s)] and its first group. *)
Definition search_trailing_digits (s : string) : option string :=
  match match_trailing_digits s with
  | Some (_, d, _) => Some d
  | None => None
  end.

(** [int(s)] in base ten on an ASCII string: the blanks TAB..CR and the
    space (not FS..US, which only [str.strip] drops) are dropped around the
    literal, one sign may lead, and the digits may be grouped by single
    underscores.  A literal of more than [max_str_digits] digits, the
    interpreter's default limit, is refused with a ValueError like any other
    bad literal.  The value of the digits is read by the library's decimal
    reader. *)
Definition is_int_space (c : ascii) : bool :=
  between 9 13 c || between 32 32 c.

Fixpoint ltrim (p : ascii -> bool) (s : string) : string :=
  match s with
  | EmptyString => EmptyString
  | String c r => if p c then ltrim p r else s
  end.

Fixpoint rtrim (p : ascii -> bool) (s : string) : string :=
  match s with
  | EmptyString => EmptyString
  | String c r =>
      match rtrim p r with
      | EmptyString => if p c then EmptyString else String c EmptyString
      | t => String c t
      end
  end.

Definition trim (p : ascii -> bool) (s : string) : string :=
  ltrim p (rtrim p s).

Definition max_str_digits : N := 4300.

Definition digit_count (ds : string) : N := N.of_nat (String.length ds).

Fixpoint digits_body (after_digit : bool) (s : string) : option string :=
  match s with
  | EmptyString => if after_digit then Some EmptyString else None
  | String c r =>
      if is_digit c then option_map (String c) (digits_body true r)
      else if Ascii.eqb c "_" && after_digit then digits_body false r
      else None
  end.

Definition int_unsigned (s : string) : option Z :=
  match digits_body false s with
  | Some ds =>
      if (digit_count ds <=? max_str_digits)%N
      then option_map Z.of_uint (NilZero.uint_of_string ds)
      else None
  | None => None
  end.

Definition int_of_str (s : string) : option Z :=
  match trim is_int_space s with
  | EmptyString => None
  | String c r =>
      if Ascii.eqb c "-" then option_map Z.opp (int_unsigned r)
      else if Ascii.eqb c "+" then int_unsigned r
      else int_unsigned (String c r)
  end.

(** [c * n] for a character. *)
Fixpoint repeat (c : ascii) (n : nat) : string :=
  match n with
  | O => EmptyString
  | S m => String c (repeat c m)
  end.

(** [str(n)] for an integer. *)
Definition str_of_int (n : Z) : string := NilZero.string_of_int (Z.to_int n).

End Py.

(** ** The vocabularies of the script *)

Definition COLOR_TOKENS : list string :=
  [ "bronze"; "silver"; "yellow"; "orange"; "purple"; "green"; "black";
    "white"; "brown"; "grey"; "gray"; "blue"; "red"; "teal"; "gold" ].

Definition BASE_TYPE_MAP : list (string * string) :=
  [ ("beam", "beam"); ("beamlong", "long beam"); ("bold", "bold glyph");
    ("bolt", "bolt pickup"); ("button", "ui button");
    ("cockpit", "cockpit module"); ("cursor", "ui cursor");
    ("enemy", "enemy fighter"); ("engine", "engine pod");
    ("fire", "thruster flame"); ("gun", "gun icon"); ("laser", "laser bolt");
    ("meteor", "meteor"); ("numeral", "digit"); ("pill", "pill powerup");
    ("playerlife", "life icon"); ("playership", "player ship");
    ("powerup", "powerup"); ("scratch", "hull scratch");
    ("shield", "shield icon"); ("speed", "speed icon"); ("star", "star icon");
    ("things", "badge icon"); ("turretbase", "turret base");
    ("ufo", "ufo saucer"); ("wing", "wing segment") ].

Definition SIZE_TOKENS : list (string * string) :=
  [ ("big", "big"); ("med", "med"); ("small", "small"); ("tiny", "tiny");
    ("long", "long") ].

(** Dictionaries as association lists. *)
Section Dict.
Context {V : Type}.

Fixpoint dict_get (k : string) (d : list (string * V)) : option V :=
  match d with
  | [] => None
  | (k', v) :: r => if String.eqb k k' then Some v else dict_get k r
  end.

Definition dict_keys (d : list (string * V)) : list string := map fst d.

Definition dict_mem (k : string) (d : list (string * V)) : bool :=
  match dict_get k d with Some _ => true | None => false end.

(** [d[k] = v]: the value is replaced where the key stands, or the pair is
    added at the end. *)
Fixpoint dict_set (k : string) (v : V) (d : list (string * V))
  : list (string * V) :=
  match d with
  | [] => [(k, v)]
  | (k', v') :: r =>
      if String.eqb k k' then (k', v) :: r else (k', v') :: dict_set k v r
  end.
End Dict.

(** ** normalize_variant *)

Definition normalize_variant (raw_variant : string) : string :=
  match raw_variant with
  | EmptyString => ""
  | _ =>
      match Py.int_of_str raw_variant with
      | Some n => Py.str_of_int n
      | None => Py.upper raw_variant
      end
  end.


(** ** Floating point: the operations of [colorsys.rgb_to_hsv] *)

Module Flt.
Local Open Scope float_scope.

(** The builtin [max] and [min] of three values keep the first of equal
    items: a later item replaces the current one only when it compares
    strictly greater (smaller). *)
Definition max3 (a b c : float) : float :=
  let m := if a <? b then b else a in if m <? c then c else m.

Definition min3 (a b c : float) : float :=
  let m := if b <? a then b else a in if c <? m then c else m.

Definition two52 : float := 4503599627370496.

(** The integer part of a non-negative finite float. *)
Definition trunc_abs (a : float) : float :=
  if two52 <=? a then a
  else let r := (a + two52) - two52 in if a <? r then r - 1 else r.

(** C's [fmod(x, 1.0)]: exact, with the sign of [x]; not a number when [x] is
    not finite. *)
Definition fmod1 (x : float) : float :=
  let a := abs x in
  if a <? 1 then x
  else if x - x =? 0
       then let f := a - trunc_abs a in if x <? 0 then - f else f
       else nan.

(** Python's [x % 1.0]: a non-zero remainder takes the sign of the divisor. *)
Definition mod1 (x : float) : float :=
  let m := fmod1 x in
  if m =? 0 then 0 else if m <? 0 then m + 1 else m.

(** [colorsys.rgb_to_hsv] of the Python standard library. *)
Definition rgb_to_hsv (r g b : float) : float * float * float :=
  let maxc := max3 r g b in
  let minc := min3 r g b in
  let rangec := maxc - minc in
  let v := maxc in
  if minc =? maxc then (0, 0, v)
  else
    let s := rangec / maxc in
    let rc := (maxc - r) / rangec in
    let gc := (maxc - g) / rangec in
    let bc := (maxc - b) / rangec in
    let h := if r =? maxc then bc - gc
             else if g =? maxc then 2 + rc - bc
             else 4 + gc - rc in
    (mod1 (h / 6), s, v).

(** Python's [x / y] on floats: a ZeroDivisionError when [y] is zero. *)
Definition py_div (x y : float) : option float :=
  if y =? 0 then None else Some (x / y).

(** [colorsys.rgb_to_hsv] with the ZeroDivisionError of its divisions kept;
    [rgb_to_hsv] is its value where no division raises. *)
Definition rgb_to_hsv_checked (r g b : float)
  : option (float * float * float) :=
  let maxc := max3 r g b in
  let minc := min3 r g b in
  let rangec := maxc - minc in
  let v := maxc in
  if minc =? maxc then Some (0, 0, v)
  else
    match py_div rangec maxc with
    | None => None
    | Some s =>
        match py_div (maxc - r) rangec, py_div (maxc - g) rangec,
              py_div (maxc - b) rangec with
        | Some rc, Some gc, Some bc =>
            let h := if r =? maxc then bc - gc
                     else if g =? maxc then 2 + rc - bc
                     else 4 + gc - rc in
            Some (mod1 (h / 6), s, v)
        | _, _, _ => None
        end
    end.

(** The float of an integer that a float holds exactly (below 2^53, which
    the channel sums and pixel counts of an image are). *)
Definition of_Z (n : Z) : float := of_uint63 (Uint63.of_Z n).

End Flt.

(** ** classify_color *)

Definition rgb : Type := (float * float * float)%type.

(** The buckets of lines 98-122, on the hue in degrees, the saturation and
    the value. *)
Definition classify_hsv (hue s v : float) : string :=
  if (s <? 0.22)%float then
    if (0.85 <? v)%float then "White"
    else if (0.6 <? v)%float then "Light Grey"
    else if (0.35 <? v)%float then "Grey"
    else "Dark Grey"
  else
    if (hue <? 20)%float || (340 <=? hue)%float then "Red"
    else if (hue <? 40)%float then
      if (0.45 <? v)%float then "Orange" else "Brown"
    else if (hue <? 65)%float then "Yellow"
    else if (hue <? 160)%float then "Green"
    else if (hue <? 210)%float then "Cyan"
    else if (hue <? 255)%float then "Blue"
    else if (hue <? 310)%float then "Purple"
    else "Magenta".

Definition is_black (c : rgb) : bool :=
  let '(r, g, b) := c in ((r =? g) && (g =? b) && (b =? 0))%float.

(** The hue in degrees, the saturation and the value that [classify_color]
    computes from the channels. *)
Definition hsv_of (c : rgb) : float * float * float :=
  let '(r, g, b) := c in
  let '(h, s, v) := Flt.rgb_to_hsv (r / 255) (g / 255) (b / 255)%float in
  ((h * 360)%float, s, v).

Definition classify_color (c : rgb) : string :=
  if is_black c then "Black"
  else let '(hue, s, v) := hsv_of c in classify_hsv hue s v.

(** [classify_color] with the ZeroDivisionError of [colorsys] kept as
    [None]; where it returns a name, [classify_color] is that name. *)
Definition hsv_of_checked (c : rgb) : option (float * float * float) :=
  let '(r, g, b) := c in
  match Flt.rgb_to_hsv_checked (r / 255) (g / 255) (b / 255)%float with
  | Some (h, s, v) => Some ((h * 360)%float, s, v)
  | None => None
  end.

Definition classify_color_checked (c : rgb) : option string :=
  if is_black c then Some "Black"
  else match hsv_of_checked c with
       | Some (hue, s, v) => Some (classify_hsv hue s v)
       | None => None
       end.

(** ** The document and the image *)

Inductive json : Type :=
| JNull
| JBool (b : bool)
| JInt (n : Z)
| JFloat (f : float)
| JStr (s : string)
| JArr (items : list json)
| JObj (fields : list (string * json)).

(** [j[k]] on a JSON value: only an object can be subscripted by a string. *)
Definition get_item (k : string) (j : json) : option json :=
  match j with
  | JObj fields => dict_get k fields
  | _ => None
  end.

(** The rectangle coordinates are integers, as the data model has them; any
    other JSON value there is an error of the model. *)
Definition as_int (j : json) : option Z :=
  match j with
  | JInt n => Some n
  | _ => None
  end.

(** An RGBA pixel. *)
Definition pixel : Type := (Z * Z * Z * Z)%type.

(** The imaging library, as the script uses it: [crop_data image box] is
    [image.crop(box).getdata()] for the box (left, upper, right, lower), or
    [None] when the library raises. *)
Class ImageLib : Type := {
  Image : Type;
  crop_data : Image -> Z * Z * Z * Z -> option (list pixel)
}.

Notation "x <- e ;; k" :=
  (match e with Some x => k | None => None end)
  (at level 61, e at next level, right associativity, only parsing).

Definition alpha (p : pixel) : Z := let '(_, _, _, a) := p in a.
Definition red (p : pixel) : Z := let '(r, _, _, _) := p in r.
Definition green (p : pixel) : Z := let '(_, g, _, _) := p in g.
Definition blue (p : pixel) : Z := let '(_, _, b, _) := p in b.

Definition opaque_pixels (region : list pixel) : list pixel :=
  filter (fun p => (0 <? alpha p)%Z) region.

Definition sum_channel (ch : pixel -> Z) (pixels : list pixel) : Z :=
  fold_left Z.add (map ch pixels) 0%Z.

Definition mean_channel (ch : pixel -> Z) (pixels : list pixel) : float :=
  (Flt.of_Z (sum_channel ch pixels) / Flt.of_Z (Z.of_nat (List.length pixels)))%float.

(** The colour that [average_color] computes from the pixels of a region. *)
Definition average_of_region (region : list pixel) : rgb :=
  match opaque_pixels region with
  | [] => (0, 0, 0)%float
  | pixels =>
      (mean_channel red pixels, mean_channel green pixels,
       mean_channel blue pixels)
  end.

Section Sampler.
Context `{lib : ImageLib}.

Definition average_color (image : Image) (frame : json) : option rgb :=
  x <- (jx <- get_item "x" frame ;; as_int jx) ;;
  y <- (jy <- get_item "y" frame ;; as_int jy) ;;
  w <- (jw <- get_item "w" frame ;; as_int jw) ;;
  h <- (jh <- get_item "h" frame ;; as_int jh) ;;
  region <- crop_data image (x, y, x + w, y + h)%Z ;;
  Some (average_of_region region).
End Sampler.

(** ** The filename parser *)

(** [sorted(keys, key=len, reverse=True)]: the sort is stable, so keys of one
    length keep the order of the dictionary. *)
Fixpoint insert_by_len (x : string) (l : list string) : list string :=
  match l with
  | [] => [x]
  | y :: t =>
      if Nat.ltb (String.length x) (String.length y)
      then y :: insert_by_len x t
      else x :: l
  end.

Definition sorted_by_len_desc (l : list string) : list string :=
  fold_right insert_by_len [] l.

Definition base_candidates : list string :=
  sorted_by_len_desc (dict_keys BASE_TYPE_MAP).

(** The lowercase letters of a segment and its final digits, as lines
    135-137 and 146-148 compute them. *)
Definition letters_of (part : string) : string :=
  Py.lower (Py.sub_trailing_digits part).

Definition digits_of (part : string) : string :=
  match Py.search_trailing_digits part with
  | Some d => d
  | None => ""
  end.

Definition extract_base (part : string) : string * string * string :=
  let letters := letters_of part in
  let variant := digits_of part in
  match find (Py.startswith letters) base_candidates with
  | Some candidate =>
      (candidate, Py.drop (String.length candidate) letters, variant)
  | None => (letters, "", variant)
  end.

Definition split_token (token : string) : string * string :=
  (letters_of token, digits_of token).

(** ** detect_color *)

(** The first colour token, in the order of [COLOR_TOKENS], that occurs in
    the text. *)
Definition first_color_token (text : string) : option string :=
  find (fun color_token => Py.contains color_token text) COLOR_TOKENS.

Definition color_label (color_token : string) : string :=
  Py.title (Py.replace "gray" "grey" color_token).

Fixpoint first_color_token_of (token_letters : list string) : option string :=
  match token_letters with
  | [] => None
  | letters :: rest =>
      match first_color_token letters with
      | Some color_token => Some color_token
      | None => first_color_token_of rest
      end
  end.

Definition detect_color (name_lower : string) (token_letters : list string)
    (c : rgb) : string :=
  match first_color_token name_lower with
  | Some color_token => color_label color_token
  | None =>
      match first_color_token_of token_letters with
      | Some color_token => color_label color_token
      | None => classify_color c
      end
  end.

(** ** describe_frame *)

Definition number_suffix (label digits : string) : string :=
  if Py.nonempty digits then label ++ digits else label.

Definition joined_variant (primary fallback : string) : string :=
  if Py.nonempty primary then "v" ++ primary else fallback.

Definition in_list (s : string) (l : list string) : bool :=
  existsb (String.eqb s) l.

(** [next((f(t) for t in tokens if p(t)), default)]. *)
Definition next_of {A B : Type} (p : A -> bool) (f : A -> B) (tokens : list A)
    (default : B) : B :=
  match find p tokens with
  | Some t => f t
  | None => default
  end.

Definition size_of (parsed_tokens : list (string * string)) : string :=
  next_of (fun t => dict_mem (fst t) SIZE_TOKENS)
          (fun t => match dict_get (fst t) SIZE_TOKENS with
                    | Some v => v
                    | None => ""
                    end)
          parsed_tokens "".

(** The shortened colour of lines 179-182. *)
Definition abbreviate (color : string) : string :=
  let color := if Py.startswith color "Light "
               then Py.replace "Light " "Lt " color else color in
  if Py.startswith color "Dark "
  then Py.replace "Dark " "Dk " color else color.

Definition with_variant (color label variant_main : string) : string :=
  Py.join_filtered " " [color; label; joined_variant variant_main ""].

(** The dispatch of lines 196-260 on the base key. *)
Definition describe_key (base_key base_remainder variant_main color : string)
    (parsed_tokens : list (string * string)) : string :=
  let type_label :=
    match dict_get base_key BASE_TYPE_MAP with
    | Some label => label
    | None => Py.replace "playership" "player ship" base_key
    end in
  if base_key =? "beam" then with_variant color "beam" variant_main
  else if base_key =? "beamlong" then with_variant color "long beam" variant_main
  else if base_key =? "bold" then color ++ " bold glyph"
  else if base_key =? "bolt" then color ++ " bolt pickup"
  else if base_key =? "button" then color ++ " ui button"
  else if base_key =? "cockpit" then with_variant color "cockpit" variant_main
  else if base_key =? "cursor" then color ++ " ui cursor"
  else if base_key =? "enemy" then with_variant color "enemy fighter" variant_main
  else if base_key =? "engine" then with_variant color "engine pod" variant_main
  else if base_key =? "fire" then with_variant color "thruster flame" variant_main
  else if base_key =? "gun" then with_variant color "gun icon" variant_main
  else if base_key =? "laser" then with_variant color "laser bolt" variant_main
  else if base_key =? "meteor" then
    let size := size_of parsed_tokens in
    let order :=
      next_of (fun t => dict_mem (fst t) SIZE_TOKENS && Py.nonempty (snd t))
              (fun t => normalize_variant (snd t))
              parsed_tokens variant_main in
    Py.join_filtered " " [color; size; "meteor"; joined_variant order ""]
  else if base_key =? "numeral" then
    let numeral := if Py.nonempty base_remainder
                   then Py.upper base_remainder else variant_main in
    color ++ " digit " ++ numeral
  else if base_key =? "pill" then color ++ " pill powerup"
  else if base_key =? "playerlife" then with_variant color "life icon" variant_main
  else if base_key =? "playership" then
    let damage :=
      next_of (fun t => fst t =? "damage")
              (fun t => normalize_variant (snd t)) parsed_tokens "" in
    let ship_variant := joined_variant variant_main "" in
    let damage_tag := if Py.nonempty damage then "dmg" ++ damage else "" in
    Py.join_filtered " " [color; "player ship"; ship_variant; damage_tag]
  else if base_key =? "powerup" then
    let flavor :=
      next_of (fun t => Py.nonempty (fst t) && negb (in_list (fst t) COLOR_TOKENS))
              fst parsed_tokens "orb" in
    color ++ " " ++ flavor ++ " powerup"
  else if base_key =? "scratch" then with_variant color "hull scratch" variant_main
  else if base_key =? "shield" then
    let level := normalize_variant variant_main in
    Py.join_filtered " " [color; "shield icon"; joined_variant level ""]
  else if base_key =? "speed" then color ++ " speed icon"
  else if base_key =? "star" then
    let star_variant := if Py.nonempty base_remainder
                        then Py.upper base_remainder else variant_main in
    Py.join_filtered " " [color; "star icon"; joined_variant star_variant ""]
  else if base_key =? "things" then
    let flavor :=
      if Py.nonempty base_remainder then base_remainder
      else next_of (fun t => negb (in_list (fst t) COLOR_TOKENS))
                   fst parsed_tokens "" in
    Py.join_filtered " "
      [color; if Py.nonempty flavor then flavor else "badge"; "icon"]
  else if base_key =? "turretbase" then
    Py.join_filtered " " [color; size_of parsed_tokens; "turret base"]
  else if base_key =? "ufo" then color ++ " ufo saucer"
  else if base_key =? "wing" then with_variant color "wing segment" variant_main
  else
    Py.join_filtered " "
      [color; Py.strip type_label; joined_variant variant_main ""].

(** The parts of a frame name that the description is built from. *)
Record parsed_name : Type := {
  lower_name : string;
  base_key : string;
  base_remainder : string;
  base_variant : string;
  parsed_tokens : list (string * string)
}.

(** Lines 164-173. *)
Definition parse_name (filename : string) : parsed_name :=
  let frame_name := Py.rsplit1_head "." filename in
  let parts := Py.split "_" frame_name in
  let base_part := hd "" parts in
  let '(key, remainder, variant) := extract_base base_part in
  let extra_tokens :=
    ((if Py.nonempty remainder then [remainder] else []) ++ tl parts)%list in
  {| lower_name := Py.lower frame_name;
     base_key := key;
     base_remainder := remainder;
     base_variant := variant;
     parsed_tokens := map split_token (filter Py.nonempty extra_tokens) |}.

(** The description of a frame name, given the colour sampled for it
    (lines 176-262). *)
Definition describe_sampled (filename : string) (c : rgb) : string :=
  let p := parse_name filename in
  let color :=
    detect_color (lower_name p) (map fst (parsed_tokens p)) c in
  let variant_main := normalize_variant (base_variant p) in
  let color := abbreviate color in
  Py.strip
    (describe_key (base_key p) (base_remainder p) variant_main color
                  (parsed_tokens p)).

Section Pipeline.
Context `{lib : ImageLib}.

(** The colour is sampled (line 175) whether or not the name holds a
    colour token, so an error of the sampler is an error of the call. *)
Definition describe_frame (filename : string) (frame : json)
    (image : Image) : option string :=
  rect <- get_item "frame" frame ;;
  c <- average_color image rect ;;
  Some (describe_sampled filename c).

(** The loop of lines 269-271 over the items of [frames]. *)
Fixpoint update_frames (image : Image) (frames : list (string * json))
  : option (list (string * json)) :=
  match frames with
  | [] => Some []
  | (filename, details) :: rest =>
      description <- describe_frame filename details image ;;
      details' <- match details with
                  | JObj fields =>
                      Some (JObj (dict_set "description" (JStr description) fields))
                  | _ => None
                  end ;;
      rest' <- update_frames image rest ;;
      Some ((filename, details') :: rest')
  end.

(** [main], from the loaded document to the document that is written
    back; a document without a [frames] member is written back as it
    is. *)
Definition main (data : json) (image : Image) : option json :=
  match data with
  | JObj fields =>
      match dict_get "frames" fields with
      | None => Some data
      | Some (JObj frames) =>
          frames' <- update_frames image frames ;;
          Some (JObj (dict_set "frames" (JObj frames') fields))
      | Some _ => None
      end
  | _ => None
  end.
End Pipeline.

(** ** Definitions of the statements *)

(** The HSV bucket table as the specification words it: half-open hue
    ranges and two-sided value ranges.  Outside the hue range 0..360 the
    table has no row. *)
Definition within (lo hi x : float) : bool := ((lo <=? x) && (x <? hi))%float.

Definition hsv_table (hue s v : float) : option string :=
  if (s <? 0.22)%float then
    if (0.85 <? v)%float then Some "White"
    else if (0.6 <? v)%float && (v <=? 0.85)%float then Some "Light Grey"
    else if (0.35 <? v)%float && (v <=? 0.6)%float then Some "Grey"
    else Some "Dark Grey"
  else if within 340 360 hue || within 0 20 hue then Some "Red"
  else if within 20 40 hue then
    Some (if (0.45 <? v)%float then "Orange" else "Brown")
  else if within 40 65 hue then Some "Yellow"
  else if within 65 160 hue then Some "Green"
  else if within 160 210 hue then Some "Cyan"
  else if within 210 255 hue then Some "Blue"
  else if within 255 310 hue then Some "Purple"
  else if within 310 340 hue then Some "Magenta"
  else None.

(** The bucket table with the Red row as the code has it: a hue of at least
    340, or below 20. *)
Definition hsv_rows (hue s v : float) : option string :=
  if (s <? 0.22)%float then
    if (0.85 <? v)%float then Some "White"
    else if (0.6 <? v)%float && (v <=? 0.85)%float then Some "Light Grey"
    else if (0.35 <? v)%float && (v <=? 0.6)%float then Some "Grey"
    else Some "Dark Grey"
  else if (340 <=? hue)%float || (hue <? 20)%float then Some "Red"
  else if within 20 40 hue then
    Some (if (0.45 <? v)%float then "Orange" else "Brown")
  else if within 40 65 hue then Some "Yellow"
  else if within 65 160 hue then Some "Green"
  else if within 160 210 hue then Some "Cyan"
  else if within 210 255 hue then Some "Blue"
  else if within 255 310 hue then Some "Purple"
  else if within 310 340 hue then Some "Magenta"
  else None.

(** The hexcone conversion of three channels in 0..1 to a hue in degrees, a
    saturation and a value: the value is the largest channel, the chroma its
    distance to the smallest, the saturation the chroma over the value, and
    the hue the sixth of a turn of the largest channel plus the signed
    distance of the other two over the chroma.  Grey has hue and saturation
    zero; a division by zero is an error. *)
Definition hexcone_hsv (r g b : float) : option (float * float * float) :=
  let maxc := Flt.max3 r g b in
  let minc := Flt.min3 r g b in
  let chroma := (maxc - minc)%float in
  if (minc =? maxc)%float then Some (0%float, 0%float, maxc)
  else if (maxc =? 0)%float || (chroma =? 0)%float then None
  else
    let sector :=
      (if r =? maxc then (maxc - b) / chroma - (maxc - g) / chroma
       else if g =? maxc then 2 + (maxc - r) / chroma - (maxc - b) / chroma
       else 4 + (maxc - g) / chroma - (maxc - r) / chroma)%float in
    Some ((Flt.mod1 (sector / 6) * 360)%float, (chroma / maxc)%float, maxc).

(** The label of each colour token: the token title-cased, with "gray"
    spelled "grey". *)
Definition COLOR_LABELS : list (string * string) :=
  [ ("bronze", "Bronze"); ("silver", "Silver"); ("yellow", "Yellow");
    ("orange", "Orange"); ("purple", "Purple"); ("green", "Green");
    ("black", "Black"); ("white", "White"); ("brown", "Brown");
    ("grey", "Grey"); ("gray", "Grey"); ("blue", "Blue"); ("red", "Red");
    ("teal", "Teal"); ("gold", "Gold") ].

(** The decimal form of a digit string without its leading zeros. *)
Fixpoint strip_zeros (s : string) : string :=
  match s with
  | EmptyString => EmptyString
  | String c r => if Ascii.eqb c "0" then strip_zeros r else s
  end.

Definition canonical_decimal (s : string) : string :=
  match strip_zeros s with
  | EmptyString => "0"
  | t => t
  end.

Definition uncased (c : ascii) : bool := negb (Py.is_cased c).

(** The order of the candidate keys: no key is longer than one before it. *)
Definition longer_first (a b : string) : Prop :=
  String.length b <= String.length a.

(** [a] occurs in [b]. *)
Definition occurs_in (a b : string) : Prop :=
  exists before after, b = before ++ a ++ after.

(** A non-empty word of lowercase letters, as every colour token is. *)
Definition lowercase_word (t : string) : bool :=
  Py.nonempty t && Py.all_chars Py.is_lower t.

(** A frame record before and after the run: the same members in the same
    places, but for [description]. *)
Definition same_but_description (old new : json) : Prop :=
  exists fields fields',
    old = JObj fields /\ new = JObj fields' /\
    (forall k, k <> "description" -> dict_get k fields' = dict_get k fields) /\
    (dict_keys fields' = dict_keys fields \/
     dict_keys fields' = (dict_keys fields ++ ["description"])%list).

Definition frame_preserved (old new : string * json) : Prop :=
  fst new = fst old /\ same_but_description (snd old) (snd new).

(** The new record holds the description that [describe_frame] gives for
    the old one. *)
Definition described `{lib : ImageLib} (image : Image)
    (old new : string * json) : Prop :=
  exists description,
    describe_frame (fst old) (snd old) image = Some description /\
    get_item "description" (snd new) = Some (JStr description).

(** A sample document of two frames. *)
Definition sample_document : json :=
  JObj
    [("frames",
      JObj
        [("ufoRed.png",
          JObj [("frame", JObj [("x", JInt 0); ("y", JInt 0);
                                ("w", JInt 2); ("h", JInt 2)]);
                ("rotated", JBool false)]);
         ("meteorBig_07",
          JObj [("description", JStr "old");
                ("frame", JObj [("x", JInt 1); ("y", JInt 1);
                                ("w", JInt 2); ("h", JInt 2)])])]);
     ("meta", JObj [("scale", JStr "1")])].

(** The frames whose rectangle the sampler can read. *)
Definition samplable `{lib : ImageLib} (image : Image) (entry : string * json)
  : Prop :=
  exists rect c,
    get_item "frame" (snd entry) = Some rect /\
    average_color image rect = Some c.

(** ** A raster image library for the examples

    Pixels outside the image are transparent, and a box whose right or lower
    edge comes before the left or upper one is refused. *)
Record raster : Type := {
  width : Z;
  height : Z;
  pixel_at : Z -> Z -> pixel
}.

Definition raster_pixel (img : raster) (x y : Z) : pixel :=
  if ((0 <=? x) && (x <? width img) && (0 <=? y) && (y <? height img))%Z
  then pixel_at img x y
  else (0, 0, 0, 0)%Z.

Definition range (lo hi : Z) : list Z :=
  map (fun i => (lo + Z.of_nat i)%Z) (seq 0 (Z.to_nat (hi - lo))).

Definition raster_crop (img : raster) (box : Z * Z * Z * Z)
  : option (list pixel) :=
  let '(x0, y0, x1, y1) := box in
  if ((x1 <? x0) || (y1 <? y0))%Z then None
  else Some (flat_map (fun y => map (fun x => raster_pixel img x y)
                                    (range x0 x1))
                      (range y0 y1)).

#[export] Instance raster_lib : ImageLib :=
  {| Image := raster; crop_data := raster_crop |}.

Definition rect_json (x y w h : Z) : json :=
  JObj [("x", JInt x); ("y", JInt y); ("w", JInt w); ("h", JInt h)].

Definition frame_json (x y w h : Z) : json :=
  JObj [("frame", rect_json x y w h)].

(** Sample images: one opaque colour, two greys whose mean is 127.5, and
    nothing but transparent pixels. *)
Definition plain (r g b : Z) : raster :=
  {| width := 4; height := 4; pixel_at := fun _ _ => (r, g, b, 255%Z) |}.

Definition mid_grey : raster :=
  {| width := 2; height := 1;
     pixel_at := fun x _ => if (x =? 0)%Z then (127, 127, 127, 255)%Z
                            else (128, 128, 128, 255)%Z |}.

Definition clear : raster :=
  {| width := 4; height := 4; pixel_at := fun _ _ => (9, 9, 9, 0)%Z |}.

(** ** Definitions of the further statements *)


(** A word that neither starts nor ends with a blank. *)
Fixpoint ends_solid (s : string) : bool :=
  match s with
  | EmptyString => false
  | String c EmptyString => negb (Py.is_space c)
  | String _ r => ends_solid r
  end.

Definition solid (w : string) : bool :=
  match w with
  | EmptyString => false
  | String c _ => negb (Py.is_space c) && ends_solid w
  end.

(** The names that [classify_color] returns. *)
Definition grey_shades : list string :=
  ["White"; "Light Grey"; "Grey"; "Dark Grey"].

Definition hue_names : list string :=
  ["Red"; "Orange"; "Brown"; "Yellow"; "Green"; "Cyan"; "Blue"; "Purple";
   "Magenta"].

Definition classified_names : list string :=
  ("Black" :: grey_shades ++ hue_names)%list.

(** The colour words a description can start with. *)
Definition color_vocabulary : list string :=
  ["Bronze"; "Silver"; "Yellow"; "Orange"; "Purple"; "Green"; "Black";
   "White"; "Brown"; "Grey"; "Blue"; "Red"; "Teal"; "Gold"; "Lt Grey";
   "Dk Grey"; "Cyan"; "Magenta"].

(** The colour of a description, lines 176-182. *)
Definition color_of (filename : string) (c : rgb) : string :=
  abbreviate
    (detect_color (lower_name (parse_name filename))
                  (map fst (parsed_tokens (parse_name filename))) c).

(** * Properties *)

(** ** The order of binary64 floats, from the specification of the
    primitive comparisons *)

Module FloatOrder.

Ltac cmp_cases :=
  repeat match goal with
         | H : context [Z.compare ?a ?b] |- _ =>
             destruct (Z.compare_spec a b); subst
         | |- context [Z.compare ?a ?b] =>
             destruct (Z.compare_spec a b); subst
         | H : context [Pos.compare ?a ?b] |- _ =>
             destruct (Pos.compare_spec a b); subst
         | |- context [Pos.compare ?a ?b] =>
             destruct (Pos.compare_spec a b); subst
         end;
  simpl in *; try reflexivity; try discriminate; try lia.

Ltac sf_destruct :=
  repeat match goal with
         | x : spec_float |- _ => destruct x as [[]|[]| |[] ? ?]
         end;
  unfold SFltb, SFleb, SFeqb, SFcompare in *;
  change (Pos.compare_cont Eq) with Pos.compare in *;
  try reflexivity; try discriminate.

Lemma SFltb_leb_trans x y z :
  SFltb x y = true -> SFleb y z = true -> SFltb x z = true.
Proof. intros Hxy Hyz. sf_destruct; cmp_cases. Qed.

Lemma SFleb_ltb_trans x y z :
  SFleb x y = true -> SFltb y z = true -> SFltb x z = true.
Proof. intros Hxy Hyz. sf_destruct; cmp_cases. Qed.

Lemma SFltb_not_leb x y : SFltb x y = true -> SFleb y x = false.
Proof. intros Hxy. sf_destruct; cmp_cases. Qed.

Lemma SFleb_not_ltb x y : SFleb x y = true -> SFltb y x = false.
Proof. intros Hxy. sf_destruct; cmp_cases. Qed.

Lemma SF_total x y :
  SFeqb x x = true -> SFeqb y y = true -> SFltb x y = true \/ SFleb y x = true.
Proof. intros Hx Hy. sf_destruct; auto; cmp_cases; auto. Qed.

Lemma SF_nan_ltb x y : SFeqb x x = false -> SFltb y x = false.
Proof. intros Hx. sf_destruct; cmp_cases. Qed.

Lemma SFeqb_trans x y z :
  SFeqb x y = true -> SFeqb y z = true -> SFeqb x z = true.
Proof. intros Hxy Hyz. sf_destruct; cmp_cases. Qed.

Lemma SFeqb_sym x y : SFeqb x y = true -> SFeqb y x = true.
Proof. intros Hxy. sf_destruct; cmp_cases. Qed.

Lemma SFltb_leb x y : SFltb x y = true -> SFleb x y = true.
Proof. intros Hxy. sf_destruct; cmp_cases. Qed.

Lemma SFleb_refl x : SFeqb x x = true -> SFleb x x = true.
Proof. intros Hx. sf_destruct; cmp_cases. Qed.

Lemma SFltb_trans x y z :
  SFltb x y = true -> SFltb y z = true -> SFltb x z = true.
Proof. intros Hxy Hyz. sf_destruct; cmp_cases. Qed.

Lemma SF_nan_ltb_l x y : SFeqb x x = false -> SFltb x y = false.
Proof. intros Hx. sf_destruct; cmp_cases. Qed.

Lemma SF_nan_leb x y : SFeqb x x = false -> SFleb y x = false.
Proof. intros Hx. sf_destruct; cmp_cases. Qed.

Lemma SF_nan_leb_l x y : SFeqb x x = false -> SFleb x y = false.
Proof. intros Hx. sf_destruct; cmp_cases. Qed.

End FloatOrder.

Import FloatOrder.

Section Order.
Local Open Scope float_scope.

Lemma ltb_leb_trans x y z :
(x <? y) = true -> (y <=? z) = true -> (x <? z) = true.
Proof. rewrite !ltb_spec, leb_spec. apply SFltb_leb_trans. Qed.

Lemma leb_ltb_trans x y z :
(x <=? y) = true -> (y <? z) = true -> (x <? z) = true.
Proof. rewrite !ltb_spec, leb_spec. apply SFleb_ltb_trans. Qed.

Lemma ltb_false_leb x y :
(x =? x) = true -> (y =? y) = true -> (x <? y) = false -> (y <=? x) = true.
Proof.
rewrite !eqb_spec, ltb_spec, leb_spec. intros Hx Hy Hlt.
destruct (SF_total _ _ Hx Hy); congruence.
Qed.

Lemma leb_false_ltb x y :
(x =? x) = true -> (y =? y) = true -> (x <=? y) = false -> (y <? x) = true.
Proof.
rewrite !eqb_spec, ltb_spec, leb_spec. intros Hx Hy Hle.
destruct (SF_total _ _ Hy Hx); congruence.
Qed.

Lemma nan_ltb_r x : (x =? x) = false -> forall y, (y <? x) = false.
Proof. rewrite eqb_spec. intros Hx y. rewrite ltb_spec. now apply SF_nan_ltb. Qed.

Lemma nan_ltb_l x : (x =? x) = false -> forall y, (x <? y) = false.
Proof. rewrite eqb_spec. intros Hx y. rewrite ltb_spec. now apply SF_nan_ltb_l. Qed.

Lemma nan_leb_r x : (x =? x) = false -> forall y, (y <=? x) = false.
Proof. rewrite eqb_spec. intros Hx y. rewrite leb_spec. now apply SF_nan_leb. Qed.

Lemma nan_leb_l x : (x =? x) = false -> forall y, (x <=? y) = false.
Proof. rewrite eqb_spec. intros Hx y. rewrite leb_spec. now apply SF_nan_leb_l. Qed.

End Order.

(** Bounds on one float against constants: a false comparison of a number
    is turned into the true opposite one, and a lower and an upper bound
    that cross are a contradiction. *)
Ltac comparable := first [ assumption | vm_compute; reflexivity ].

Ltac flip_false :=
  repeat match goal with
         | H : (?a <? ?b)%float = false |- _ =>
             apply ltb_false_leb in H; [ | comparable | comparable ]
         | H : (?a <=? ?b)%float = false |- _ =>
             apply leb_false_ltb in H; [ | comparable | comparable ]
         end.

Ltac crossing :=
  match goal with
  | H : false = true |- _ => discriminate H
  | H : true = false |- _ => discriminate H
  | H1 : (?a <? ?x)%float = true, H2 : (?x <=? ?b)%float = true |- _ =>
      let K := fresh in
      pose proof (ltb_leb_trans _ _ _ H1 H2) as K; vm_compute in K; discriminate K
  | H1 : (?a <=? ?x)%float = true, H2 : (?x <? ?b)%float = true |- _ =>
      let K := fresh in
      pose proof (leb_ltb_trans _ _ _ H1 H2) as K; vm_compute in K; discriminate K
  end.

Ltac head_test c :=
  lazymatch c with
  | andb ?a _ => head_test a
  | orb ?a _ => head_test a
  | (if ?a then _ else _) => head_test a
  | _ => c
  end.

Ltac case_head t :=
  lazymatch t with
  | (if ?c then _ else _) =>
      let a := head_test c in destruct a eqn:?; cbn [andb orb]
  end.

Ltac split_ifs :=
  repeat match goal with
         | |- (?l = _) -> _ => case_head l
         | |- (?l <> _) => case_head l
         | |- ?l = _ => case_head l
         end.

Ltac float_nan_cases x :=
  let Hx := fresh "Hnum" in
  destruct (x =? x)%float eqn:Hx;
  [ | rewrite ?(nan_ltb_r x Hx), ?(nan_ltb_l x Hx),
              ?(nan_leb_r x Hx), ?(nan_leb_l x Hx) ].

(** ** Integer literals and case mapping *)

Ltac each_char c := destruct c as [[] [] [] [] [] [] [] []].

Lemma digit_not_space c : Py.is_digit c = true -> Py.is_int_space c = false.
Proof. each_char c; vm_compute; congruence. Qed.

Lemma digit_uncased c : Py.is_digit c = true -> uncased c = true.
Proof. each_char c; vm_compute; congruence. Qed.

Lemma digit_not_sign c :
  Py.is_digit c = true -> Ascii.eqb c "-" = false /\ Ascii.eqb c "+" = false.
Proof. each_char c; vm_compute; intuition congruence. Qed.

Lemma space_uncased c : Py.is_int_space c = true -> uncased c = true.
Proof. each_char c; vm_compute; congruence. Qed.

Lemma upper_char_fixed c : uncased c = true -> Py.upper_char c = c.
Proof. each_char c; vm_compute; congruence. Qed.

Lemma upper_char_cased c : Py.is_lower c = true -> uncased (Py.upper_char c) = false.
Proof. each_char c; vm_compute; congruence. Qed.

Lemma upper_char_not_lower c : Py.is_lower c = false -> Py.upper_char c = c.
Proof. unfold Py.upper_char. now intros ->. Qed.

Lemma upper_char_idem c : Py.upper_char (Py.upper_char c) = Py.upper_char c.
Proof. each_char c; vm_compute; congruence. Qed.

Lemma rtrim_fixed p s :
  Py.all_chars (fun c => negb (p c)) s = true -> Py.rtrim p s = s.
Proof.
  induction s as [|c r IH]; simpl; [reflexivity|].
  intros [Hc Hr]%andb_prop. rewrite (IH Hr).
  apply negb_true_iff in Hc. rewrite Hc. now destruct r.
Qed.

Lemma all_chars_impl (p q : ascii -> bool) s :
  (forall c, p c = true -> q c = true) ->
  Py.all_chars p s = true -> Py.all_chars q s = true.
Proof.
  intros Hpq. induction s as [|c r IH]; simpl; [reflexivity|].
  intros [Hc Hr]%andb_prop. now rewrite (Hpq _ Hc), IH.
Qed.

Lemma trim_fixed p c r :
  p c = false ->
  Py.all_chars (fun c => negb (p c)) r = true ->
  Py.trim p (String c r) = String c r.
Proof.
  intros Hc Hr. unfold Py.trim. rewrite rtrim_fixed.
  - simpl. now rewrite Hc.
  - simpl. now rewrite Hc, Hr.
Qed.

Lemma digits_no_space s :
  Py.all_chars Py.is_digit s = true ->
  Py.all_chars (fun c => negb (Py.is_int_space c)) s = true.
Proof.
  apply all_chars_impl. intros c Hc. now rewrite (digit_not_space c Hc).
Qed.

Lemma digits_body_digits s :
  Py.all_chars Py.is_digit s = true -> s <> "" ->
  forall b, Py.digits_body b s = Some s.
Proof.
  induction s as [|c r IH]; [congruence|].
  simpl. intros [Hc Hr]%andb_prop _ b. rewrite Hc.
  destruct r as [|c' r']; [reflexivity|].
  now rewrite IH.
Qed.

Lemma uint_of_digits s :
  Py.all_chars Py.is_digit s = true ->
  exists d, NilEmpty.uint_of_string s = Some d.
Proof.
  induction s as [|c r IH]; simpl; [now eexists|].
  intros [Hc Hr]%andb_prop. destruct (IH Hr) as [d ->].
  revert Hc. each_char c; vm_compute; try discriminate; intros _; now eexists.
Qed.

Lemma string_of_uint_digits d :
  Py.all_chars Py.is_digit (NilEmpty.string_of_uint d) = true.
Proof. induction d; simpl; auto. Qed.

Lemma string_of_nzhead d :
  NilEmpty.string_of_uint (nzhead d) = strip_zeros (NilEmpty.string_of_uint d).
Proof. induction d; simpl; auto. Qed.

Lemma string_of_unorm d :
  NilZero.string_of_uint (unorm d) = canonical_decimal (NilEmpty.string_of_uint d).
Proof.
  unfold canonical_decimal, unorm. rewrite <- string_of_nzhead.
  destruct (nzhead d); reflexivity.
Qed.

(** a digit string is read whole, when it is not too long *)

Lemma int_of_digit_string s :
  Py.all_chars Py.is_digit s = true -> s <> "" ->
  Py.int_of_str s =
  if (Py.digit_count s <=? Py.max_str_digits)%N
  then option_map Z.of_uint (NilZero.uint_of_string s)
  else None.
Proof.
  intros Hs Hne. destruct s as [|c r]; [congruence|].
  pose proof Hs as Hs'. simpl in Hs'. apply andb_prop in Hs' as [Hc Hr].
  unfold Py.int_of_str.
  rewrite (trim_fixed _ c r (digit_not_space c Hc) (digits_no_space r Hr)).
  destruct (digit_not_sign c Hc) as [-> ->].
  unfold Py.int_unsigned. now rewrite (digits_body_digits _ Hs Hne).
Qed.

Lemma int_of_digits s :
  Py.all_chars Py.is_digit s = true -> s <> "" ->
  (Py.digit_count s <= Py.max_str_digits)%N ->
  exists d, NilEmpty.uint_of_string s = Some d /\
            Py.int_of_str s = Some (Z.of_uint d).
Proof.
  intros Hs Hne Hlen. destruct (uint_of_digits s Hs) as [d Hd].
  exists d. split; [exact Hd|].
  rewrite (int_of_digit_string s Hs Hne).
  apply N.leb_le in Hlen. rewrite Hlen.
  unfold NilZero.uint_of_string. destruct s; [congruence|]. now rewrite Hd.
Qed.

Lemma int_of_long_digits s :
  Py.all_chars Py.is_digit s = true ->
  (Py.max_str_digits < Py.digit_count s)%N ->
  Py.int_of_str s = None.
Proof.
  intros Hs Hlen.
  assert (Hne : s <> "") by (intros ->; now apply N.nlt_0_r in Hlen).
  rewrite (int_of_digit_string s Hs Hne).
  apply N.leb_gt in Hlen. now rewrite Hlen.
Qed.

Lemma str_of_uint_value d :
  Py.str_of_int (Z.of_uint d) = canonical_decimal (NilEmpty.string_of_uint d).
Proof.
  unfold Py.str_of_int. change (Z.of_uint d) with (Z.of_int (Pos d)).
  rewrite DecimalZ.to_of. simpl. apply string_of_unorm.
Qed.

Lemma normalize_digits s :
  Py.all_chars Py.is_digit s = true -> s <> "" ->
  (Py.digit_count s <= Py.max_str_digits)%N ->
  normalize_variant s = canonical_decimal s.
Proof.
  intros Hs Hne Hlen. destruct (int_of_digits s Hs Hne Hlen) as (d & Hd & Hint).
  unfold normalize_variant. rewrite Hint.
  destruct s; [congruence|].
  rewrite str_of_uint_value. now rewrite (NilEmpty.sus _ _ Hd).
Qed.

Lemma upper_fixed s : Py.all_chars uncased s = true -> Py.upper s = s.
Proof.
  induction s as [|c r IH]; simpl; [reflexivity|].
  intros [Hc Hr]%andb_prop. unfold Py.upper in *. simpl.
  now rewrite (upper_char_fixed c Hc), IH.
Qed.

Lemma normalize_long_digits s :
  Py.all_chars Py.is_digit s = true ->
  (Py.max_str_digits < Py.digit_count s)%N ->
  normalize_variant s = s.
Proof.
  intros Hs Hlen. unfold normalize_variant.
  rewrite (int_of_long_digits s Hs Hlen).
  destruct s; [reflexivity|].
  apply upper_fixed. revert Hs. apply all_chars_impl, digit_uncased.
Qed.

(** what [str] prints is read back by [int], when it is not too long *)

Lemma string_of_uint_nonempty d : d <> Nil -> NilEmpty.string_of_uint d <> "".
Proof. destruct d; simpl; congruence. Qed.

Lemma nilzero_string_of_uint d :
  d <> Nil -> NilZero.string_of_uint d = NilEmpty.string_of_uint d.
Proof. destruct d; simpl; congruence. Qed.

Lemma int_unsigned_str p :
  (Py.digit_count (NilEmpty.string_of_uint (Pos.to_uint p))
   <= Py.max_str_digits)%N ->
  Py.int_unsigned (NilEmpty.string_of_uint (Pos.to_uint p)) = Some (Zpos p).
Proof.
  intros Hlen. pose proof (Unsigned.to_uint_nonnil p) as Hnil.
  unfold Py.int_unsigned.
  rewrite digits_body_digits;
    [ | apply string_of_uint_digits | now apply string_of_uint_nonempty ].
  apply N.leb_le in Hlen. rewrite Hlen.
  rewrite <- (nilzero_string_of_uint _ Hnil), (NilZero.usu _ Hnil). simpl.
  f_equal. exact (DecimalZ.of_to (Zpos p)).
Qed.

(** The digits that [str] prints for the size of [n]. *)
Lemma str_of_int_abs n :
  Py.str_of_int n = Py.str_of_int (Z.abs n) \/
  Py.str_of_int n = String "-" (Py.str_of_int (Z.abs n)).
Proof. destruct n; [now left|now left|now right]. Qed.

Lemma int_of_str_of_int n :
  (Py.digit_count (Py.str_of_int (Z.abs n)) <= Py.max_str_digits)%N ->
  Py.int_of_str (Py.str_of_int n) = Some n.
Proof.
  destruct n as [|p|p]; [reflexivity| |].
  - unfold Py.str_of_int. simpl Z.abs. simpl Z.to_int.
    simpl NilZero.string_of_int.
    pose proof (Unsigned.to_uint_nonnil p) as Hnil.
    rewrite (nilzero_string_of_uint _ Hnil). intros Hlen.
    pose proof (string_of_uint_digits (Pos.to_uint p)) as Hd.
    pose proof (int_unsigned_str p Hlen) as Hu.
    destruct (NilEmpty.string_of_uint (Pos.to_uint p)) as [|c r] eqn:E.
    + now apply string_of_uint_nonempty in E.
    + simpl in Hd. apply andb_prop in Hd as [Hc Hr].
      unfold Py.int_of_str.
      rewrite (trim_fixed _ c r (digit_not_space c Hc) (digits_no_space r Hr)).
      destruct (digit_not_sign c Hc) as [-> ->]. exact Hu.
  - unfold Py.str_of_int. simpl Z.abs. simpl Z.to_int.
    simpl NilZero.string_of_int.
    pose proof (Unsigned.to_uint_nonnil p) as Hnil.
    rewrite (nilzero_string_of_uint _ Hnil). intros Hlen.
    unfold Py.int_of_str. rewrite trim_fixed;
      [ | reflexivity | apply digits_no_space, string_of_uint_digits ].
    simpl. now rewrite (int_unsigned_str p Hlen).
Qed.

Lemma str_of_int_nonempty n : Py.str_of_int n <> "".
Proof.
  destruct n as [|p|p]; unfold Py.str_of_int; simpl; try discriminate.
  rewrite (nilzero_string_of_uint _ (Unsigned.to_uint_nonnil p)).
  apply string_of_uint_nonempty, Unsigned.to_uint_nonnil.
Qed.

Lemma normalize_str_of_int n :
  (Py.digit_count (Py.str_of_int (Z.abs n)) <= Py.max_str_digits)%N ->
  normalize_variant (Py.str_of_int n) = Py.str_of_int n.
Proof.
  intros Hlen. unfold normalize_variant. rewrite (int_of_str_of_int n Hlen).
  destruct (Py.str_of_int n) eqn:E; [|reflexivity].
  now apply str_of_int_nonempty in E.
Qed.

(** the number that [int] reads prints no longer than its literal *)

Lemma strip_zeros_length s :
  String.length (strip_zeros s) <= String.length s.
Proof.
  induction s as [|c r IH]; simpl; [lia|].
  destruct (Ascii.eqb c "0"); simpl; lia.
Qed.

Lemma canonical_decimal_length s :
  s <> "" -> String.length (canonical_decimal s) <= String.length s.
Proof.
  intros Hne. unfold canonical_decimal.
  pose proof (strip_zeros_length s) as Hl.
  destruct (strip_zeros s); [|exact Hl].
  destruct s; [congruence|simpl; lia].
Qed.

Lemma digits_body_out s :
  forall b ds,
    Py.digits_body b s = Some ds ->
    Py.all_chars Py.is_digit ds = true /\ (b = false -> ds <> "").
Proof.
  induction s as [|c r IH]; intros b ds; simpl.
  - destruct b; [|discriminate]. intros [= <-]. split; [reflexivity|discriminate].
  - destruct (Py.is_digit c) eqn:Hc.
    + destruct (Py.digits_body true r) as [t|] eqn:E; [|discriminate].
      intros [= <-]. split; [|discriminate].
      simpl. rewrite Hc. exact (proj1 (IH _ _ E)).
    + destruct (Ascii.eqb c "_" && b) eqn:Hu; [|discriminate].
      apply andb_prop in Hu as [_ ->]. intros H.
      destruct (IH _ _ H) as [Hd Hne]. split; [exact Hd|discriminate].
Qed.

Lemma of_uint_nonneg d : (0 <= Z.of_uint d)%Z.
Proof. unfold Z.of_uint. apply N2Z.is_nonneg. Qed.

Lemma int_unsigned_bound s n :
  Py.int_unsigned s = Some n ->
  (0 <= n)%Z /\
  (Py.digit_count (Py.str_of_int n) <= Py.max_str_digits)%N.
Proof.
  unfold Py.int_unsigned.
  destruct (Py.digits_body false s) as [ds|] eqn:E; [|discriminate].
  destruct (digits_body_out _ _ _ E) as [Hd Hne]. specialize (Hne eq_refl).
  destruct (N.leb_spec (Py.digit_count ds) Py.max_str_digits) as [Hlen|];
    [|discriminate].
  destruct (uint_of_digits ds Hd) as [d Hu].
  unfold NilZero.uint_of_string. destruct ds as [|c r] eqn:Eds; [congruence|].
  rewrite <- Eds in *. rewrite Hu. simpl. intros [= <-].
  split; [apply of_uint_nonneg|].
  rewrite str_of_uint_value, (NilEmpty.sus _ _ Hu).
  pose proof (canonical_decimal_length ds Hne) as Hl.
  unfold Py.digit_count in *. lia.
Qed.

Lemma int_of_str_bound s n :
  Py.int_of_str s = Some n ->
  (Py.digit_count (Py.str_of_int (Z.abs n)) <= Py.max_str_digits)%N.
Proof.
  unfold Py.int_of_str.
  destruct (Py.trim Py.is_int_space s) as [|c r]; [discriminate|].
  destruct (Ascii.eqb c "-").
  - destruct (Py.int_unsigned r) as [m|] eqn:E; [|discriminate].
    intros [= <-]. destruct (int_unsigned_bound _ _ E) as [Hm Hl].
    now rewrite Z.abs_opp, (Z.abs_eq _ Hm).
  - destruct (Ascii.eqb c "+"); intros H;
      destruct (int_unsigned_bound _ _ H) as [Hm Hl];
      now rewrite (Z.abs_eq _ Hm).
Qed.

(** a literal that [int] reads holds no letter *)

Lemma rtrim_uncased s :
  Py.all_chars uncased (Py.rtrim Py.is_int_space s) = true ->
  Py.all_chars uncased s = true.
Proof.
  induction s as [|c r IH]; simpl; [reflexivity|].
  destruct (Py.rtrim Py.is_int_space r) as [|c' r'] eqn:E.
  - destruct (Py.is_int_space c) eqn:Hc; simpl.
    + intros _. rewrite (space_uncased c Hc). now apply IH.
    + rewrite andb_true_r. intros ->. now apply IH.
  - simpl. intros [-> H]%andb_prop. now apply IH.
Qed.

Lemma ltrim_uncased s :
  Py.all_chars uncased (Py.ltrim Py.is_int_space s) = true ->
  Py.all_chars uncased s = true.
Proof.
  induction s as [|c r IH]; simpl; [reflexivity|].
  destruct (Py.is_int_space c) eqn:Hc; [|exact (fun H => H)].
  intros H. now rewrite (space_uncased c Hc), IH.
Qed.

Lemma digits_body_uncased s :
  forall b ds, Py.digits_body b s = Some ds -> Py.all_chars uncased s = true.
Proof.
  induction s as [|c r IH]; simpl; [reflexivity|]. intros b ds.
  destruct (Py.is_digit c) eqn:Hc.
  - destruct (Py.digits_body true r) eqn:E; [|discriminate].
    intros _. now rewrite (digit_uncased c Hc), (IH _ _ E).
  - destruct (Ascii.eqb_spec c "_"); [subst c|discriminate].
    destruct b; [|discriminate]. simpl. now apply IH.
Qed.

Lemma int_unsigned_uncased s n :
  Py.int_unsigned s = Some n -> Py.all_chars uncased s = true.
Proof.
  unfold Py.int_unsigned.
  destruct (Py.digits_body false s) eqn:E; [|discriminate].
  intros _. exact (digits_body_uncased _ _ _ E).
Qed.

Lemma int_of_str_uncased s n :
  Py.int_of_str s = Some n -> Py.all_chars uncased s = true.
Proof.
  unfold Py.int_of_str, Py.trim. intros H.
  apply rtrim_uncased, ltrim_uncased.
  destruct (Py.ltrim _ (Py.rtrim _ s)) as [|c r]; [discriminate|].
  destruct (Ascii.eqb_spec c "-"); [subst c|].
  { destruct (Py.int_unsigned r) eqn:E; [|discriminate].
    simpl. exact (int_unsigned_uncased _ _ E). }
  destruct (Ascii.eqb_spec c "+"); [subst c|].
  { simpl. exact (int_unsigned_uncased _ _ H). }
  exact (int_unsigned_uncased _ _ H).
Qed.

Lemma upper_uncased s :
  Py.all_chars uncased (Py.upper s) = true -> Py.upper s = s.
Proof.
  induction s as [|c r IH]; simpl; [reflexivity|].
  intros [Hc Hr]%andb_prop. unfold Py.upper in *. simpl. rewrite (IH Hr).
  destruct (Py.is_lower c) eqn:Hl.
  - now rewrite (upper_char_cased c Hl) in Hc.
  - now rewrite (upper_char_not_lower c Hl).
Qed.

Lemma upper_idem s : Py.upper (Py.upper s) = Py.upper s.
Proof.
  unfold Py.upper. induction s as [|c r IH]; simpl; [reflexivity|].
  now rewrite upper_char_idem, IH.
Qed.

Lemma int_of_str_upper s :
  Py.int_of_str s = None -> Py.int_of_str (Py.upper s) = None.
Proof.
  intros Hs. destruct (Py.int_of_str (Py.upper s)) as [n|] eqn:E; [|reflexivity].
  pose proof (upper_uncased _ (int_of_str_uncased _ _ E)) as Hfix.
  rewrite Hfix in E. congruence.
Qed.

Lemma normalize_idem s :
  normalize_variant (normalize_variant s) = normalize_variant s.
Proof.
  destruct s as [|c r]; [reflexivity|].
  change (normalize_variant (String c r))
    with (match Py.int_of_str (String c r) with
          | Some n => Py.str_of_int n
          | None => Py.upper (String c r)
          end).
  destruct (Py.int_of_str (String c r)) as [n|] eqn:E.
  - apply normalize_str_of_int. exact (int_of_str_bound _ _ E).
  - unfold normalize_variant. rewrite (int_of_str_upper _ E), upper_idem.
    reflexivity.
Qed.

(** ** The longest key and the first colour token *)

Lemma insert_by_len_In x z l :
  In z (insert_by_len x l) <-> z = x \/ In z l.
Proof.
  induction l as [|y t IH]; simpl.
  - intuition.
  - destruct (Nat.ltb _ _); simpl; rewrite ?IH; intuition.
Qed.

Lemma sorted_by_len_desc_In z l : In z (sorted_by_len_desc l) <-> In z l.
Proof.
  induction l as [|x t IH]; simpl; [reflexivity|].
  rewrite insert_by_len_In, IH. intuition.
Qed.

Lemma insert_by_len_sorted x l :
  StronglySorted longer_first l -> StronglySorted longer_first (insert_by_len x l).
Proof.
  induction 1 as [|y t Ht IH Hy]; simpl.
  - constructor; constructor.
  - destruct (Nat.ltb_spec (String.length x) (String.length y)) as [Hlt|Hge].
    + constructor; [exact IH|].
      apply Forall_forall. intros z [->|Hz]%insert_by_len_In.
      * unfold longer_first. lia.
      * rewrite Forall_forall in Hy. now apply Hy.
    + constructor; [now constructor|].
      constructor; [exact Hge|].
      eapply Forall_impl; [|exact Hy]. unfold longer_first. intros; lia.
Qed.

Lemma sorted_by_len_desc_sorted l :
  StronglySorted longer_first (sorted_by_len_desc l).
Proof.
  induction l; simpl; [constructor | now apply insert_by_len_sorted].
Qed.

Lemma find_longest (p : string -> bool) l k :
  StronglySorted longer_first l -> find p l = Some k ->
  forall k', In k' l -> p k' = true -> String.length k' <= String.length k.
Proof.
  induction 1 as [|y t Ht IH Hy]; simpl; [discriminate|].
  destruct (p y) eqn:Hp.
  - intros [= <-] k' [<-|Hin] _; [lia|].
    rewrite Forall_forall in Hy. exact (Hy _ Hin).
  - intros Hf k' [<-|Hin] Hk'; [congruence|]. now apply IH.
Qed.

Lemma prefix_split k s :
  String.prefix k s = true -> s = k ++ Py.drop (String.length k) s.
Proof.
  revert s. induction k as [|c k IH]; intros s; [reflexivity|].
  destruct s as [|c' s]; simpl; [discriminate|].
  destruct (ascii_dec c c'); [subst|discriminate].
  intros H. f_equal. now apply IH.
Qed.

Lemma found_key_result part key :
  find (Py.startswith (letters_of part)) base_candidates = Some key ->
  extract_base part =
    (key, Py.drop (String.length key) (letters_of part), digits_of part).
Proof. unfold extract_base. now intros ->. Qed.

Lemma longest_key_found part k :
  In k (dict_keys BASE_TYPE_MAP) ->
  Py.startswith (letters_of part) k = true ->
  exists key remainder,
    extract_base part = (key, remainder, digits_of part) /\
    In key (dict_keys BASE_TYPE_MAP) /\
    letters_of part = key ++ remainder /\
    String.length k <= String.length key.
Proof.
  intros Hin Hk.
  destruct (find (Py.startswith (letters_of part)) base_candidates) as [key|] eqn:E.
  - exists key, (Py.drop (String.length key) (letters_of part)).
    destruct (find_some _ _ E) as [Hkey Hpre].
    split; [now apply found_key_result|].
    split; [exact (proj1 (sorted_by_len_desc_In _ _) Hkey)|].
    split; [now apply prefix_split|].
    apply (find_longest _ _ _ (sorted_by_len_desc_sorted _) E);
      [exact (proj2 (sorted_by_len_desc_In _ _) Hin) | exact Hk].
  - apply (proj2 (sorted_by_len_desc_In _ _)) in Hin.
    pose proof (find_none _ _ E _ Hin). congruence.
Qed.

Lemma unknown_key_fallback part :
  (forall k, In k (dict_keys BASE_TYPE_MAP) ->
             Py.startswith (letters_of part) k = false) ->
  extract_base part = (letters_of part, "", digits_of part).
Proof.
  intros Hno. unfold extract_base.
  destruct (find _ base_candidates) as [key|] eqn:E; [|reflexivity].
  destruct (find_some _ _ E) as [Hkey Hpre].
  apply (proj1 (sorted_by_len_desc_In _ _)) in Hkey.
  rewrite (Hno _ Hkey) in Hpre. discriminate.
Qed.

(** detect_color *)

Lemma find_first {A} (p : A -> bool) l t :
  find p l = Some t ->
  exists earlier later,
    l = (earlier ++ t :: later)%list /\ p t = true /\
    forall u, In u earlier -> p u = false.
Proof.
  induction l as [|x r IH]; simpl; [discriminate|].
  destruct (p x) eqn:Hx.
  - intros [= <-]. exists [], r. simpl. intuition.
  - intros (earlier & later & -> & Ht & Hpre)%IH.
    exists (x :: earlier), later. simpl. split; [reflexivity|].
    split; [exact Ht|]. intros u [<-|Hu]; auto.
Qed.

Lemma color_label_not_gray t : In t COLOR_TOKENS -> color_label t <> "Gray".
Proof.
  simpl. intros H.
  repeat (destruct H as [<-|H]; [vm_compute; discriminate|]). contradiction.
Qed.

Lemma color_label_table t :
  In t COLOR_TOKENS -> dict_get t COLOR_LABELS = Some (color_label t).
Proof.
  simpl. intros H.
  repeat (destruct H as [<-|H]; [vm_compute; reflexivity|]). contradiction.
Qed.

Lemma first_token_decides name_lower token_letters (c1 c2 : rgb) :
  (exists t, In t COLOR_TOKENS /\ Py.contains t name_lower = true) ->
  exists earlier t later,
    COLOR_TOKENS = (earlier ++ t :: later)%list /\
    Py.contains t name_lower = true /\
    (forall u, In u earlier -> Py.contains u name_lower = false) /\
    dict_get t COLOR_LABELS = Some (detect_color name_lower token_letters c1) /\
    detect_color name_lower token_letters c1
      = Py.title (Py.replace "gray" "grey" t) /\
    detect_color name_lower token_letters c1 <> "Gray" /\
    detect_color name_lower token_letters c2
      = detect_color name_lower token_letters c1.
Proof.
  intros (t0 & Hin & Hc).
  destruct (first_color_token name_lower) as [t|] eqn:E.
  - destruct (find_first _ _ _ E) as (earlier & later & Hsplit & Ht & Hpre).
    assert (Htok : In t COLOR_TOKENS).
    { rewrite Hsplit. apply in_or_app. right. now left. }
    exists earlier, t, later. unfold detect_color. rewrite E.
    repeat split; auto.
    + now apply color_label_table.
    + now apply color_label_not_gray.
  - pose proof (find_none _ _ E _ Hin) as Hn. simpl in Hn. congruence.
Qed.

(** ** The letters of the tokens occur in the lowercase name *)

Lemma append_assoc (a b c : string) : (a ++ b) ++ c = a ++ b ++ c.
Proof. induction a; simpl; congruence. Qed.

Lemma append_nil_r (a : string) : a ++ "" = a.
Proof. induction a; simpl; congruence. Qed.

Lemma prefix_append a b : String.prefix a (a ++ b) = true.
Proof.
  induction a as [|c a IH]; simpl; [now destruct b|].
  destruct (ascii_dec c c); [exact IH|congruence].
Qed.

Lemma contains_unfold a b :
  Py.contains a b =
  String.prefix a b ||
  match b with EmptyString => false | String _ r => Py.contains a r end.
Proof. now destruct b. Qed.

Lemma contains_occurs a b : Py.contains a b = true <-> occurs_in a b.
Proof.
  split.
  - induction b as [|c b IH]; rewrite contains_unfold.
    + rewrite orb_false_r. intros H%prefix_split.
      exists "", (Py.drop (String.length a) ""). exact H.
    + intros [H|H]%orb_prop.
      * apply prefix_split in H.
        now exists "", (Py.drop (String.length a) (String c b)).
      * destruct (IH H) as (before & after & ->).
        now exists (String c before), after.
  - intros (before & after & ->).
    induction before as [|c before IH].
    + rewrite contains_unfold. cbn [append]. now rewrite prefix_append.
    + rewrite contains_unfold. cbn [append]. rewrite IH. apply orb_true_r.
Qed.

Lemma occurs_in_trans a b c : occurs_in a b -> occurs_in b c -> occurs_in a c.
Proof.
  intros (p & q & ->) (p' & q' & ->).
  exists (p' ++ p), (q ++ q'). now rewrite !append_assoc.
Qed.

Lemma occurs_in_prefix a b : occurs_in a (a ++ b).
Proof. now exists "", b. Qed.

Lemma occurs_in_suffix a b : occurs_in b (a ++ b).
Proof. exists a, "". now rewrite append_nil_r. Qed.

Lemma occurs_in_cons c a b : occurs_in a b -> occurs_in a (String c b).
Proof. intros (p & q & ->). now exists (String c p), q. Qed.

Lemma lower_append a b : Py.lower (a ++ b) = Py.lower a ++ Py.lower b.
Proof. unfold Py.lower. induction a; simpl; congruence. Qed.

Lemma occurs_in_lower a b :
  occurs_in a b -> occurs_in (Py.lower a) (Py.lower b).
Proof.
  intros (p & q & ->). exists (Py.lower p), (Py.lower q).
  now rewrite !lower_append.
Qed.

Lemma lower_char_idem c : Py.lower_char (Py.lower_char c) = Py.lower_char c.
Proof. destruct c as [[] [] [] [] [] [] [] []]; vm_compute; reflexivity. Qed.

Lemma lower_idem s : Py.lower (Py.lower s) = Py.lower s.
Proof.
  unfold Py.lower. induction s as [|c r IH]; simpl; [reflexivity|].
  now rewrite lower_char_idem, IH.
Qed.

(** the parts of a split name occur in it *)

Lemma split_parts sep s :
  exists p ps, Py.split sep s = p :: ps /\
               (exists rest, s = p ++ rest) /\
               forall q, In q ps -> occurs_in q s.
Proof.
  induction s as [|c r (p & ps & E & (rest & Hp) & Hps)]; simpl.
  - exists "", []. repeat split; [now exists ""|contradiction].
  - destruct (Ascii.eqb c sep).
    + exists "", (Py.split sep r). split; [reflexivity|].
      split; [now exists (String c r)|].
      intros q Hq. apply occurs_in_cons. rewrite E in Hq.
      destruct Hq as [<-|Hq]; [|now apply Hps].
      rewrite Hp. apply occurs_in_prefix.
    + rewrite E. exists (String c p), ps. split; [reflexivity|].
      split; [exists rest; simpl; congruence|].
      intros q Hq. now apply occurs_in_cons, Hps.
Qed.

(** the letters of a segment *)

Lemma split_trailing_digits_append s :
  s = fst (Py.split_trailing_digits s) ++ snd (Py.split_trailing_digits s).
Proof.
  induction s as [|c r IH]; simpl; [reflexivity|].
  destruct (Py.split_trailing_digits r) as [h d]; simpl in IH.
  destruct h; [destruct (Py.is_digit c)|]; simpl in *; congruence.
Qed.

Lemma chomp_lf_append s :
  s = fst (Py.chomp_lf s) ++ snd (Py.chomp_lf s) /\
  (snd (Py.chomp_lf s) = "" \/ snd (Py.chomp_lf s) = String Py.LF "").
Proof.
  induction s as [|c r [IH1 IH2]]; simpl; [auto|].
  destruct r as [|c' r'].
  - destruct (Ascii.eqb_spec c Py.LF); simpl; subst; auto.
  - destruct (Py.chomp_lf (String c' r')) as [h t]; simpl in *.
    split; [congruence|exact IH2].
Qed.

Lemma prefix_before_lf t u :
  Py.all_chars Py.is_lower t = true ->
  String.prefix t (u ++ String Py.LF "") = true -> String.prefix t u = true.
Proof.
  revert u. induction t as [|c t IH]; intros u Ht; [now destruct u|].
  simpl in Ht. apply andb_prop in Ht as [Hc Ht].
  destruct u as [|x u]; simpl.
  - destruct (ascii_dec c Py.LF); [subst; discriminate|discriminate].
  - destruct (ascii_dec c x); [now apply IH|discriminate].
Qed.

Lemma contains_before_lf t a :
  lowercase_word t = true ->
  Py.contains t (a ++ String Py.LF "") = true -> Py.contains t a = true.
Proof.
  intros [Hne Hlow]%andb_prop.
  induction a as [|x a IH].
  - simpl. destruct t as [|c t]; [discriminate|].
    simpl in Hlow. apply andb_prop in Hlow as [Hc _]. simpl.
    destruct (ascii_dec c Py.LF); [subst; discriminate|].
    destruct t; discriminate.
  - change (Py.contains t (String x a ++ String Py.LF ""))
      with (String.prefix t (String x a ++ String Py.LF "")
            || Py.contains t (a ++ String Py.LF "")).
    intros [H|H]%orb_prop.
    + apply (prefix_before_lf t (String x a) Hlow) in H.
      simpl. simpl in H. now rewrite H.
    + simpl. rewrite (IH H). apply orb_true_r.
Qed.

Lemma sub_trailing_digits_shape part :
  exists h tail,
    Py.sub_trailing_digits part = h ++ tail /\
    (exists rest, part = h ++ rest) /\
    (tail = "" \/ tail = String Py.LF "").
Proof.
  unfold Py.sub_trailing_digits, Py.match_trailing_digits.
  destruct (chomp_lf_append part) as [Hs Ht].
  pose proof (split_trailing_digits_append (fst (Py.chomp_lf part))) as Hb.
  destruct (Py.chomp_lf part) as [body tail]; simpl in *.
  destruct (Py.split_trailing_digits body) as [h d]; simpl in *.
  destruct d as [|c d].
  - exists part, "". rewrite append_nil_r.
    repeat split; [exists ""; now rewrite append_nil_r|now left].
  - exists h, tail. split; [reflexivity|]. split; [|exact Ht].
    exists (String c d ++ tail). now rewrite Hs, Hb, append_assoc.
Qed.

Lemma letters_contains t part :
  lowercase_word t = true ->
  Py.contains t (letters_of part) = true ->
  Py.contains t (Py.lower part) = true.
Proof.
  intros Ht. unfold letters_of.
  destruct (sub_trailing_digits_shape part) as (h & tail & -> & (rest & Hp) & Htail).
  rewrite lower_append. intros Hc.
  assert (Hh : Py.contains t (Py.lower h) = true).
  { destruct Htail as [->| ->].
    - now rewrite append_nil_r in Hc.
    - now apply contains_before_lf. }
  apply contains_occurs. apply contains_occurs in Hh.
  eapply occurs_in_trans; [exact Hh|].
  rewrite Hp, lower_append. apply occurs_in_prefix.
Qed.

Lemma contains_lower_mono t a b :
  occurs_in a b -> Py.contains t (Py.lower a) = true ->
  Py.contains t (Py.lower b) = true.
Proof.
  intros Hab Ht. apply contains_occurs. apply contains_occurs in Ht.
  eapply occurs_in_trans; [exact Ht|now apply occurs_in_lower].
Qed.

Lemma remainder_occurs part :
  let '(_, remainder, _) := extract_base part in
  occurs_in remainder (letters_of part).
Proof.
  unfold extract_base.
  destruct (find _ base_candidates) as [key|] eqn:E.
  - destruct (find_some _ _ E) as [_ Hpre].
    apply prefix_split in Hpre. rewrite Hpre at 2. apply occurs_in_suffix.
  - exists "", (letters_of part). reflexivity.
Qed.

Lemma letters_of_lower part : Py.lower (letters_of part) = letters_of part.
Proof. apply lower_idem. Qed.

Lemma token_letters_in_name filename t letters :
  lowercase_word t = true ->
  In letters (map fst (parsed_tokens (parse_name filename))) ->
  Py.contains t letters = true ->
  Py.contains t (lower_name (parse_name filename)) = true.
Proof.
  intros Ht. unfold parse_name.
  set (frame_name := Py.rsplit1_head "." filename).
  destruct (split_parts "_" frame_name) as (p & ps & -> & (rest & Hp) & Hps).
  simpl hd. simpl tl.
  pose proof (remainder_occurs p) as Hrem.
  destruct (extract_base p) as [[key remainder] variant].
  cbn [lower_name parsed_tokens].
  rewrite map_map. cbn [split_token fst].
  intros (token & <- & Htok)%in_map_iff Hc.
  apply filter_In in Htok as [Htok _].
  apply letters_contains in Hc; [|exact Ht].
  apply in_app_or in Htok as [Htok|Htok].
  - destruct (Py.nonempty remainder); [|contradiction].
    destruct Htok as [<-|[]].
    apply (contains_lower_mono t _ _ Hrem) in Hc.
    rewrite letters_of_lower in Hc.
    apply letters_contains in Hc; [|exact Ht].
    apply (contains_lower_mono t p); [|exact Hc].
    rewrite Hp. apply occurs_in_prefix.
  - apply (contains_lower_mono t token); [|exact Hc]. now apply Hps.
Qed.

Lemma color_tokens_lowercase :
  forallb lowercase_word COLOR_TOKENS = true.
Proof. reflexivity. Qed.

Lemma tokens_without_color filename :
  first_color_token (lower_name (parse_name filename)) = None ->
  first_color_token_of (map fst (parsed_tokens (parse_name filename))) = None.
Proof.
  intros Hname.
  assert (Hall : forall letters,
             In letters (map fst (parsed_tokens (parse_name filename))) ->
             first_color_token letters = None).
  { intros letters Hin.
    destruct (first_color_token letters) as [t|] eqn:E; [|reflexivity].
    destruct (find_some _ _ E) as [Ht Hc].
    pose proof (proj1 (forallb_forall _ _) color_tokens_lowercase _ Ht) as Hlow.
    pose proof (token_letters_in_name _ _ _ Hlow Hin Hc) as Hn.
    pose proof (find_none _ _ Hname _ Ht) as Hf. simpl in Hf. congruence. }
  induction (map fst (parsed_tokens (parse_name filename))) as [|l ls IH];
    [reflexivity|].
  simpl. rewrite (Hall l (or_introl eq_refl)). apply IH.
  intros letters Hin. apply Hall. now right.
Qed.

(** ** Equality of floats and the black test *)

Section BlackTest.
Local Open Scope float_scope.

Lemma eqb_trans x y z : (x =? y) = true -> (y =? z) = true -> (x =? z) = true.
Proof. rewrite !eqb_spec. apply SFeqb_trans. Qed.

Lemma eqb_sym x y : (x =? y) = true -> (y =? x) = true.
Proof. rewrite !eqb_spec. apply SFeqb_sym. Qed.

Lemma is_black_zero r g b :
is_black (r, g, b) = true <->
(r =? 0) = true /\ (g =? 0) = true /\ (b =? 0) = true.
Proof.
unfold is_black. rewrite !andb_true_iff. split.
- intros [[Hrg Hgb] Hb].
  pose proof (eqb_trans _ _ _ Hgb Hb) as Hg.
  pose proof (eqb_trans _ _ _ Hrg Hg) as Hr. auto.
- intros (Hr & Hg & Hb).
  pose proof (eqb_sym _ _ Hg) as Hg'. pose proof (eqb_sym _ _ Hb) as Hb'.
  repeat split; eauto using eqb_trans.
Qed.

End BlackTest.

Lemma classify_color_not_black c hue s v :
  is_black c = false -> hsv_of c = (hue, s, v) ->
  classify_color c = classify_hsv hue s v.
Proof. unfold classify_color. now intros -> ->. Qed.

Lemma classify_hsv_blue hue s v :
  (0.22 <=? s)%float = true -> within 210 255 hue = true ->
  classify_hsv hue s v = "Blue".
Proof.
  unfold within, classify_hsv. intros Hs [Hlo Hhi]%andb_prop.
  float_nan_cases hue; [ | rewrite (nan_ltb_l hue Hnum) in Hhi; discriminate ].
  float_nan_cases s; [ | rewrite (nan_leb_r s Hnum0) in Hs; discriminate ].
  split_ifs; try reflexivity; exfalso; flip_false; crossing.
Qed.

(** ** The bucket table *)

Section MoreOrder.
Local Open Scope float_scope.

Lemma ltb_leb x y : (x <? y) = true -> (x <=? y) = true.
Proof. rewrite ltb_spec, leb_spec. apply SFltb_leb. Qed.

Lemma leb_refl x : (x =? x) = true -> (x <=? x) = true.
Proof. rewrite eqb_spec, leb_spec. apply SFleb_refl. Qed.

Lemma ltb_trans x y z : (x <? y) = true -> (y <? z) = true -> (x <? z) = true.
Proof. rewrite !ltb_spec. apply SFltb_trans. Qed.

Lemma max3_bounds x y z :
  (Flt.max3 x y z = x \/ Flt.max3 x y z = y \/ Flt.max3 x y z = z) /\
  ((x =? x) = true -> (y =? y) = true -> (z =? z) = true ->
   (x <=? Flt.max3 x y z) = true /\ (y <=? Flt.max3 x y z) = true /\
   (z <=? Flt.max3 x y z) = true).
Proof.
  unfold Flt.max3. cbv zeta.
  destruct (x <? y) eqn:Exy.
  - destruct (y <? z) eqn:Eyz; (split; [tauto|]); intros Hx Hy Hz.
    + repeat split; [apply ltb_leb; eapply ltb_trans; eassumption
                    |now apply ltb_leb | now apply leb_refl].
    + repeat split; [now apply ltb_leb | now apply leb_refl
                    |now apply ltb_false_leb].
  - destruct (x <? z) eqn:Exz; (split; [tauto|]); intros Hx Hy Hz.
    + repeat split; [now apply ltb_leb | | now apply leb_refl].
      apply ltb_leb. eapply leb_ltb_trans; [|exact Exz].
      now apply ltb_false_leb.
    + repeat split; [now apply leb_refl | now apply ltb_false_leb
                    |now apply ltb_false_leb].
Qed.

Lemma min3_bounds x y z :
  (Flt.min3 x y z = x \/ Flt.min3 x y z = y \/ Flt.min3 x y z = z) /\
  ((x =? x) = true -> (y =? y) = true -> (z =? z) = true ->
   (Flt.min3 x y z <=? x) = true /\ (Flt.min3 x y z <=? y) = true /\
   (Flt.min3 x y z <=? z) = true).
Proof.
  unfold Flt.min3. cbv zeta.
  destruct (y <? x) eqn:Eyx.
  - destruct (z <? y) eqn:Ezy; (split; [tauto|]); intros Hx Hy Hz.
    + repeat split; [apply ltb_leb; eapply ltb_trans; eassumption
                    |now apply ltb_leb | now apply leb_refl].
    + repeat split; [now apply ltb_leb | now apply leb_refl
                    |now apply ltb_false_leb].
  - destruct (z <? x) eqn:Ezx; (split; [tauto|]); intros Hx Hy Hz.
    + repeat split; [now apply ltb_leb | | now apply leb_refl].
      apply ltb_leb. eapply ltb_leb_trans; [exact Ezx|].
      now apply ltb_false_leb.
    + repeat split; [now apply leb_refl | now apply ltb_false_leb
                    |now apply ltb_false_leb].
Qed.

Lemma mod1_small y :
  (abs y <? 1) = true ->
  Flt.mod1 y = if y =? 0 then 0 else if y <? 0 then y + 1 else y.
Proof. unfold Flt.mod1, Flt.fmod1. cbv zeta. now intros ->. Qed.

End MoreOrder.

Lemma hsv_rows_sound hue s v name :
  hsv_rows hue s v = Some name -> classify_hsv hue s v = name.
Proof.
  unfold hsv_rows, classify_hsv, within.
  float_nan_cases hue; float_nan_cases v; simpl;
    split_ifs; intros [= <-]; split_ifs; try reflexivity;
    exfalso; flip_false; crossing.
Qed.

Lemma hsv_rows_total hue s v :
  (hue =? hue)%float = true -> hsv_rows hue s v <> None.
Proof.
  unfold hsv_rows, within. intros Hnum.
  split_ifs; try discriminate; exfalso; flip_false; crossing.
Qed.

Lemma hsv_of_checked_hexcone r g b :
  hsv_of_checked (r, g, b)
  = hexcone_hsv (r / 255)%float (g / 255)%float (b / 255)%float.
Proof.
  unfold hsv_of_checked, hexcone_hsv, Flt.rgb_to_hsv_checked, Flt.py_div.
  cbv zeta.
  destruct (Flt.min3 _ _ _ =? Flt.max3 _ _ _)%float; [reflexivity|].
  destruct (Flt.max3 _ _ _ =? 0)%float; [reflexivity|].
  destruct (_ - _ =? 0)%float; reflexivity.
Qed.

Lemma hsv_of_checked_value c x : hsv_of_checked c = Some x -> hsv_of c = x.
Proof.
  destruct c as [[r g] b].
  unfold hsv_of_checked, hsv_of, Flt.rgb_to_hsv_checked, Flt.rgb_to_hsv,
    Flt.py_div. cbv zeta.
  destruct (Flt.min3 _ _ _ =? Flt.max3 _ _ _)%float; [now intros [= <-]|].
  destruct (Flt.max3 _ _ _ =? 0)%float; [discriminate|].
  destruct (_ - _ =? 0)%float; [discriminate|]. now intros [= <-].
Qed.

Lemma classify_color_checked_value c name :
  classify_color_checked c = Some name -> classify_color c = name.
Proof.
  unfold classify_color_checked, classify_color.
  destruct (is_black c); [now intros [= <-]|].
  destruct (hsv_of_checked c) as [[[hue s] v]|] eqn:E; [|discriminate].
  rewrite (hsv_of_checked_value _ _ E). now intros [= <-].
Qed.

(** C4, as the code has it.  A triple is pure black when its three channels
    are zero, and it is named Black before any HSV test.  For any other
    triple that [colorsys] converts without a ZeroDivisionError to a hue
    that is a number, [classify_color] follows the HSV bucket table: with a
    saturation below 0.22 the value picks White above 0.85, Light Grey in
    (0.6, 0.85], Grey in (0.35, 0.6] and Dark Grey otherwise; else the hue
    in degrees picks Red when it is at least 340 (the computed hue can be
    exactly 360) or below 20, Orange or Brown on [20,40) as the value is
    above 0.45 or not, Yellow on [40,65), Green on [65,160), Cyan on
    [160,210), Blue on [210,255), Purple on [255,310) and Magenta on
    [310,340); one row always applies.  The hue, the saturation and the
    value are those of the hexcone conversion of the channels over 255,
    whose largest and smallest channel bound the three and whose turn is
    taken modulo one. *)
Theorem classify_color_rows (c : rgb) :
  (is_black c = true -> classify_color_checked c = Some "Black") /\
  (forall r g b,
     c = (r, g, b) ->
     (is_black c = true <->
      (r =? 0)%float = true /\ (g =? 0)%float = true /\ (b =? 0)%float = true)) /\
  (is_black c = false ->
   forall hue s v,
     hsv_of_checked c = Some (hue, s, v) -> (hue =? hue)%float = true ->
     exists name,
       hsv_rows hue s v = Some name /\ classify_color_checked c = Some name) /\
  (is_black c = false -> hsv_of_checked c = None ->
   classify_color_checked c = None) /\
  (forall r g b,
     c = (r, g, b) ->
     hsv_of_checked c
     = hexcone_hsv (r / 255)%float (g / 255)%float (b / 255)%float) /\
  (forall x y z : float,
     (Flt.max3 x y z = x \/ Flt.max3 x y z = y \/ Flt.max3 x y z = z) /\
     ((x =? x)%float = true -> (y =? y)%float = true -> (z =? z)%float = true ->
      (x <=? Flt.max3 x y z)%float = true /\
      (y <=? Flt.max3 x y z)%float = true /\
      (z <=? Flt.max3 x y z)%float = true)) /\
  (forall x y z : float,
     (Flt.min3 x y z = x \/ Flt.min3 x y z = y \/ Flt.min3 x y z = z) /\
     ((x =? x)%float = true -> (y =? y)%float = true -> (z =? z)%float = true ->
      (Flt.min3 x y z <=? x)%float = true /\
      (Flt.min3 x y z <=? y)%float = true /\
      (Flt.min3 x y z <=? z)%float = true)) /\
  (forall y : float,
     (abs y <? 1)%float = true ->
     Flt.mod1 y
     = if (y =? 0)%float then 0%float
       else if (y <? 0)%float then (y + 1)%float else y).
Proof.
  split; [unfold classify_color_checked; now intros ->|].
  split; [intros r g b ->; apply is_black_zero|].
  split.
  { intros Hb hue s v Hhsv Hnum.
    destruct (hsv_rows hue s v) as [name|] eqn:E.
    - exists name. split; [reflexivity|].
      unfold classify_color_checked. rewrite Hb, Hhsv.
      now rewrite (hsv_rows_sound _ _ _ _ E).
    - now apply hsv_rows_total in E. }
  split; [unfold classify_color_checked; now intros -> ->|].
  split; [intros r g b ->; apply hsv_of_checked_hexcone|].
  split; [apply max3_bounds|]. split; [apply min3_bounds|apply mod1_small].
Qed.

Lemma classify_color_rows_witness :
  classify_color_checked (0, 0, 0)%float = Some "Black" /\
  (exists name,
     hsv_rows (fst (fst (hsv_of (255, 0, 128)%float)))
              (snd (fst (hsv_of (255, 0, 128)%float)))
              (snd (hsv_of (255, 0, 128)%float)) = Some name /\
     classify_color_checked (255, 0, 128)%float = Some name) /\
  classify_color_checked (255, 0, 128)%float = Some "Magenta" /\
  classify_color_checked (0, -1, -1)%float = None /\
  Flt.mod1 (-0.25)%float = 0.75%float.
Proof.
  split; [exact (proj1 (classify_color_rows (0, 0, 0)%float) eq_refl)|].
  split.
  { apply (proj1 (proj2 (proj2 (classify_color_rows (255, 0, 128)%float)))
             eq_refl); vm_compute; reflexivity. }
  split; [vm_compute; reflexivity|].
  split.
  { apply (proj1 (proj2 (proj2 (proj2
             (classify_color_rows (0, -1, -1)%float)))));
      vm_compute; reflexivity. }
  rewrite (proj2 (proj2 (proj2 (proj2 (proj2 (proj2 (proj2
             (classify_color_rows (0, 0, 0)%float))))))) (-0.25)%float);
    vm_compute; reflexivity.
Defined.

(** C4 as stated fails: the triple (255, 0, 3e-14) is not black and its hue
    comes out as exactly 360, which lies in none of the stated ranges, so
    the table has no row for it; [classify_color] names it Red. *)
Lemma hue_360_is_off_the_table :
  is_black (255, 0, 3e-14)%float = false /\
  hsv_of (255, 0, 3e-14)%float = (360, 1, 1)%float /\
  hsv_of_checked (255, 0, 3e-14)%float = Some (360, 1, 1)%float /\
  within 340 360 360 = false /\ within 0 20 360 = false /\
  hsv_table 360 1 1 = None /\
  classify_color (255, 0, 3e-14)%float = "Red".
Proof. repeat split; vm_compute; reflexivity. Qed.

(** ** The claims on the parser *)

(** C6, as the code has it.  [normalize_variant] sends a string of at most
    4300 decimal digits to its decimal form without leading zeros (so "007"
    to "7") and the empty string to the empty string; a longer string of
    digits is beyond what [int] reads by default and comes back as it is,
    leading zeros included; and any string that [int] does not read comes
    back in upper case. *)
Theorem normalize_variant_within_limit (s : string) :
  (s = "" -> normalize_variant s = "") /\
  (s <> "" -> Py.all_chars Py.is_digit s = true ->
   (Py.digit_count s <= Py.max_str_digits)%N ->
   normalize_variant s = canonical_decimal s) /\
  (Py.all_chars Py.is_digit s = true ->
   (Py.max_str_digits < Py.digit_count s)%N ->
   normalize_variant s = s) /\
  (Py.int_of_str s = None -> normalize_variant s = Py.upper s) /\
  normalize_variant "007" = "7".
Proof.
  split; [now intros ->|].
  split; [intros Hne Hd Hlen; now apply normalize_digits|].
  split; [intros Hd Hlen; now apply normalize_long_digits|].
  split; [|reflexivity].
  intros Hnone. unfold normalize_variant. rewrite Hnone. now destruct s.
Qed.

Lemma normalize_variant_within_limit_witness :
  normalize_variant "" = "" /\
  normalize_variant "0042" = "42" /\
  normalize_variant (Py.repeat "0" 4301) = Py.repeat "0" 4301 /\
  normalize_variant "b2" = "B2" /\
  normalize_variant (String "7" (String (ascii_of_nat 31) ""))
  = String "7" (String (ascii_of_nat 31) "").
Proof.
  split; [exact (proj1 (normalize_variant_within_limit "") eq_refl)|].
  split.
  { apply (proj1 (proj2 (normalize_variant_within_limit "0042")));
      [discriminate | reflexivity | vm_compute; discriminate]. }
  split.
  { apply (proj1 (proj2 (proj2
             (normalize_variant_within_limit (Py.repeat "0" 4301)))));
      vm_compute; reflexivity. }
  split.
  { apply (proj1 (proj2 (proj2 (proj2 (normalize_variant_within_limit "b2"))))).
    reflexivity. }
  apply (proj1 (proj2 (proj2 (proj2
           (normalize_variant_within_limit
              (String "7" (String (ascii_of_nat 31) ""))))))).
  reflexivity.
Defined.

(** C6 as stated fails: 4301 zeros are a string of decimal digits whose
    decimal form without leading zeros is "0", and they come back
    unchanged. *)
Lemma long_zeros_are_kept :
  Py.all_chars Py.is_digit (Py.repeat "0" 4301) = true /\
  canonical_decimal (Py.repeat "0" 4301) = "0" /\
  normalize_variant (Py.repeat "0" 4301) = Py.repeat "0" 4301 /\
  normalize_variant (Py.repeat "0" 4301)
  <> canonical_decimal (Py.repeat "0" 4301).
Proof.
  repeat split; try (vm_compute; reflexivity).
  vm_compute. discriminate.
Qed.

Lemma describe_key_shield remainder variant_main color tokens :
  describe_key "shield" remainder variant_main color tokens
  = Py.join_filtered " "
      [color; "shield icon";
       joined_variant (normalize_variant variant_main) ""].
Proof. reflexivity. Qed.

(** C10. [normalize_variant] is idempotent, so the shield branch of
    [describe_frame], which normalizes the normalized base variant once
    more, builds the same variant fragment and the same description as a
    branch that normalizes once. *)
Theorem normalize_variant_idempotent (s : string) :
  normalize_variant (normalize_variant s) = normalize_variant s /\
  joined_variant (normalize_variant (normalize_variant s)) ""
    = joined_variant (normalize_variant s) "" /\
  forall color remainder tokens,
    describe_key "shield" remainder (normalize_variant s) color tokens
    = with_variant color "shield icon" (normalize_variant s).
Proof.
  split; [apply normalize_idem|].
  split; [now rewrite normalize_idem|].
  intros color remainder tokens.
  rewrite describe_key_shield, normalize_idem. reflexivity.
Qed.

(** C5. [extract_base] tries the keys longest first: when the letters of a
    segment start with some known key, the key returned is a known key that
    the letters start with, no shorter than any other such key, and the
    remainder is what follows it; "beamlong2" gives the key "beamlong", no
    remainder and the variant "2"; and letters that start with no known key
    are returned whole, with no remainder and the final digits. *)
Theorem extract_base_longest_first (part : string) :
  (forall k,
     In k (dict_keys BASE_TYPE_MAP) ->
     Py.startswith (letters_of part) k = true ->
     exists key remainder,
       extract_base part = (key, remainder, digits_of part) /\
       In key (dict_keys BASE_TYPE_MAP) /\
       letters_of part = key ++ remainder /\
       String.length k <= String.length key) /\
  ((forall k, In k (dict_keys BASE_TYPE_MAP) ->
              Py.startswith (letters_of part) k = false) ->
   extract_base part = (letters_of part, "", digits_of part)) /\
  extract_base "beamlong2" = ("beamlong", "", "2").
Proof.
  split; [intros k; apply longest_key_found|].
  split; [apply unknown_key_fallback|reflexivity].
Qed.

Lemma extract_base_longest_first_witness :
  (exists key remainder,
     extract_base "beamlong2" = (key, remainder, "2") /\
     In key (dict_keys BASE_TYPE_MAP) /\
     "beamlong" = key ++ remainder /\
     4 <= String.length key) /\
  extract_base "RedLaser" = ("redlaser", "", "").
Proof.
  split.
  - apply (proj1 (extract_base_longest_first "beamlong2") "beam").
    + simpl. tauto.
    + reflexivity.
  - apply (proj1 (proj2 (extract_base_longest_first "RedLaser"))).
    intros k Hk. simpl in Hk.
    repeat (destruct Hk as [<-|Hk]; [reflexivity|]). contradiction.
Defined.

(** C3. When the lowercase name holds one of the colour tokens,
    [detect_color] returns the label of the first token of [COLOR_TOKENS]
    that occurs in it: the token title-cased, with "gray" spelled "grey"
    (never "Gray"), as the table [COLOR_LABELS] lists it; the token letters
    and the sampled colour play no part, and two sampled colours give the
    same result. *)
Theorem detect_color_lexical (name_lower : string)
    (token_letters : list string) (c1 c2 : rgb) :
  (exists t, In t COLOR_TOKENS /\ Py.contains t name_lower = true) ->
  exists earlier t later,
    COLOR_TOKENS = (earlier ++ t :: later)%list /\
    Py.contains t name_lower = true /\
    (forall u, In u earlier -> Py.contains u name_lower = false) /\
    dict_get t COLOR_LABELS = Some (detect_color name_lower token_letters c1) /\
    detect_color name_lower token_letters c1
      = Py.title (Py.replace "gray" "grey" t) /\
    detect_color name_lower token_letters c1 <> "Gray" /\
    detect_color name_lower token_letters c2
      = detect_color name_lower token_letters c1.
Proof. apply first_token_decides. Qed.

Lemma detect_color_lexical_witness :
  exists earlier t later,
    COLOR_TOKENS = (earlier ++ t :: later)%list /\
    Py.contains t "graymeteor_red1" = true /\
    (forall u, In u earlier -> Py.contains u "graymeteor_red1" = false) /\
    dict_get t COLOR_LABELS
      = Some (detect_color "graymeteor_red1" ["red"] (0, 0, 0)%float) /\
    detect_color "graymeteor_red1" ["red"] (0, 0, 0)%float
      = Py.title (Py.replace "gray" "grey" t) /\
    detect_color "graymeteor_red1" ["red"] (0, 0, 0)%float <> "Gray" /\
    detect_color "graymeteor_red1" ["red"] (30, 60, 200)%float
      = detect_color "graymeteor_red1" ["red"] (0, 0, 0)%float.
Proof.
  apply (detect_color_lexical "graymeteor_red1" ["red"]).
  exists "red". split; [simpl; tauto | reflexivity].
Defined.

(** ** The description of a frame *)

Lemma describe_frame_sampled `{lib : ImageLib} filename frame rect image c :
  get_item "frame" frame = Some rect ->
  average_color image rect = Some c ->
  describe_frame filename frame image = Some (describe_sampled filename c).
Proof. unfold describe_frame. now intros -> ->. Qed.

Lemma detect_color_perceptual name_lower token_letters c :
  first_color_token name_lower = None ->
  first_color_token_of token_letters = None ->
  detect_color name_lower token_letters c = classify_color c.
Proof. unfold detect_color. now intros -> ->. Qed.

Lemma describe_sampled_perceptual filename c :
  first_color_token (lower_name (parse_name filename)) = None ->
  describe_sampled filename c =
  Py.strip
    (describe_key (base_key (parse_name filename))
                  (base_remainder (parse_name filename))
                  (normalize_variant (base_variant (parse_name filename)))
                  (abbreviate (classify_color c))
                  (parsed_tokens (parse_name filename))).
Proof.
  intros Hname. unfold describe_sampled.
  now rewrite (detect_color_perceptual _ _ c Hname (tokens_without_color _ Hname)).
Qed.

(** C1, as the code has it.  For the frame name "RedLaser_03", whatever the
    rectangle and the sampled colour, the description is "Red redlaser": the
    colour comes from the token "red" of the name; the base segment
    "RedLaser" starts with no known key, so its lowercase letters are the
    key, without remainder or variant, and the token "03" is not used. *)
Theorem describe_RedLaser_03 `{lib : ImageLib} (frame rect : json) (image : Image)
    (c : rgb) :
  get_item "frame" frame = Some rect ->
  average_color image rect = Some c ->
  describe_frame "RedLaser_03" frame image = Some "Red redlaser" /\
  detect_color "redlaser_03" [""] c = "Red" /\
  extract_base "RedLaser" = ("redlaser", "", "") /\
  parsed_tokens (parse_name "RedLaser_03") = [("", "03")].
Proof.
  intros Hrect Hc.
  rewrite (describe_frame_sampled _ _ _ _ _ Hrect Hc).
  repeat split; reflexivity.
Qed.

Lemma describe_RedLaser_03_witness :
  describe_frame (lib := raster_lib) "RedLaser_03" (frame_json 0 0 4 4) (plain 30 60 200)
    = Some "Red redlaser" /\
  detect_color "redlaser_03" [""] (30, 60, 200)%float = "Red" /\
  extract_base "RedLaser" = ("redlaser", "", "") /\
  parsed_tokens (parse_name "RedLaser_03") = [("", "03")].
Proof.
  apply (describe_RedLaser_03 (lib := raster_lib) (frame_json 0 0 4 4) (rect_json 0 0 4 4)
                              (plain 30 60 200) (30, 60, 200)%float);
    vm_compute; reflexivity.
Defined.

(** C1 as stated fails: a red frame named "RedLaser_03" is not described as
    "Red laser bolt v3". *)
Lemma RedLaser_03_is_not_laser_bolt :
  describe_frame (lib := raster_lib) "RedLaser_03" (frame_json 0 0 4 4) (plain 200 30 30)
    <> Some "Red laser bolt v3".
Proof. vm_compute. discriminate. Qed.

(** C2, as the code has it.  For the frame name "meteorBig_07", which holds
    no colour token, and a sampled colour that classifies as Grey, the
    description is "Grey big meteor": "big" is the size token, but it carries
    no digits, the token "07" has no letters and so is not a size token, and
    the base variant is empty, so there is no order fragment. *)
Theorem describe_meteorBig_07 `{lib : ImageLib} (frame rect : json) (image : Image)
    (c : rgb) :
  get_item "frame" frame = Some rect ->
  average_color image rect = Some c ->
  classify_color c = "Grey" ->
  describe_frame "meteorBig_07" frame image = Some "Grey big meteor" /\
  first_color_token "meteorbig_07" = None /\
  extract_base "meteorBig" = ("meteor", "big", "") /\
  parsed_tokens (parse_name "meteorBig_07") = [("big", ""); ("", "07")].
Proof.
  intros Hrect Hc Hgrey.
  rewrite (describe_frame_sampled _ _ _ _ _ Hrect Hc).
  rewrite describe_sampled_perceptual by reflexivity.
  rewrite Hgrey. repeat split; reflexivity.
Qed.

Lemma describe_meteorBig_07_witness :
  describe_frame (lib := raster_lib) "meteorBig_07" (frame_json 0 0 2 1) mid_grey
    = Some "Grey big meteor" /\
  first_color_token "meteorbig_07" = None /\
  extract_base "meteorBig" = ("meteor", "big", "") /\
  parsed_tokens (parse_name "meteorBig_07") = [("big", ""); ("", "07")].
Proof.
  apply (describe_meteorBig_07 (lib := raster_lib) (frame_json 0 0 2 1) (rect_json 0 0 2 1)
                               mid_grey (127.5, 127.5, 127.5)%float);
    vm_compute; reflexivity.
Defined.

(** C2 as stated fails: the two greys of [mid_grey] average to a colour
    without saturation and of value 0.5, which classifies as Grey, the name
    holds no colour token, and yet the description is not
    "Grey big meteor v7". *)
Lemma meteorBig_07_has_no_v7 :
  first_color_token "meteorbig_07" = None /\
  average_color (lib := raster_lib) mid_grey (rect_json 0 0 2 1)
    = Some (127.5, 127.5, 127.5)%float /\
  hsv_of (127.5, 127.5, 127.5)%float = (0, 0, 0.5)%float /\
  classify_color (127.5, 127.5, 127.5)%float = "Grey" /\
  describe_frame (lib := raster_lib) "meteorBig_07" (frame_json 0 0 2 1) mid_grey
    <> Some "Grey big meteor v7".
Proof.
  repeat split; try (vm_compute; reflexivity).
  vm_compute. discriminate.
Qed.

(** C7. For the frame name "playership3_damage2", which holds no colour
    token, and a sampled colour in the Blue bucket (not black, saturation
    at least 0.22, hue in [210,255)), the description is
    "Blue player ship v3 dmg2": the base variant "3" gives "v3" and the
    digits of the token whose letters are "damage" give "dmg2". *)
Theorem describe_playership3_damage2 `{lib : ImageLib} (frame rect : json)
    (image : Image) (c : rgb) (hue s v : float) :
  get_item "frame" frame = Some rect ->
  average_color image rect = Some c ->
  is_black c = false ->
  hsv_of c = (hue, s, v) ->
  (0.22 <=? s)%float = true ->
  within 210 255 hue = true ->
  describe_frame "playership3_damage2" frame image
    = Some "Blue player ship v3 dmg2" /\
  first_color_token "playership3_damage2" = None /\
  extract_base "playership3" = ("playership", "", "3") /\
  parsed_tokens (parse_name "playership3_damage2") = [("damage", "2")].
Proof.
  intros Hrect Hc Hblack Hhsv Hs Hhue.
  rewrite (describe_frame_sampled _ _ _ _ _ Hrect Hc).
  rewrite describe_sampled_perceptual by reflexivity.
  rewrite (classify_color_not_black c hue s v Hblack Hhsv).
  rewrite (classify_hsv_blue hue s v Hs Hhue).
  repeat split; reflexivity.
Qed.

Lemma describe_playership3_damage2_witness :
  describe_frame (lib := raster_lib) "playership3_damage2" (frame_json 0 0 4 4) (plain 30 60 200)
    = Some "Blue player ship v3 dmg2" /\
  first_color_token "playership3_damage2" = None /\
  extract_base "playership3" = ("playership", "", "3") /\
  parsed_tokens (parse_name "playership3_damage2") = [("damage", "2")].
Proof.
  refine (describe_playership3_damage2 (lib := raster_lib)
            (frame_json 0 0 4 4) (rect_json 0 0 4 4) (plain 30 60 200)
            (30, 60, 200)%float
            (fst (fst (hsv_of (30, 60, 200)%float)))
            (snd (fst (hsv_of (30, 60, 200)%float)))
            (snd (hsv_of (30, 60, 200)%float)) _ _ _ _ _ _);
    vm_compute; reflexivity.
Defined.

(** ** Transparent regions *)

Lemma opaque_pixels_none region :
  (forall p, In p region -> (alpha p <= 0)%Z) -> opaque_pixels region = [].
Proof.
  unfold opaque_pixels. induction region as [|p r IH]; [reflexivity|].
  intros Hall. simpl.
  destruct (Z.ltb_spec 0 (alpha p)) as [Hpos|_].
  - specialize (Hall p (or_introl eq_refl)). lia.
  - apply IH. intros q Hq. apply Hall. now right.
Qed.

Lemma average_of_transparent region :
  (forall p, In p region -> (alpha p <= 0)%Z) ->
  average_of_region region = (0, 0, 0)%float.
Proof. intros Hall. unfold average_of_region. now rewrite opaque_pixels_none. Qed.

Lemma average_color_region `{lib : ImageLib} image rect x y w h region :
  get_item "x" rect = Some (JInt x) ->
  get_item "y" rect = Some (JInt y) ->
  get_item "w" rect = Some (JInt w) ->
  get_item "h" rect = Some (JInt h) ->
  crop_data image (x, y, x + w, y + h)%Z = Some region ->
  average_color image rect = Some (average_of_region region).
Proof.
  intros Hx Hy Hw Hh Hcrop. unfold average_color.
  rewrite Hx, Hy, Hw, Hh. simpl. now rewrite Hcrop.
Qed.

(** every description starts with the colour *)

Lemma join_filtered_head color parts :
  Py.nonempty color = true ->
  exists rest, Py.join_filtered " " (color :: parts) = color ++ rest.
Proof.
  intros Hc. unfold Py.join_filtered. simpl. rewrite Hc. simpl.
  destruct (filter Py.nonempty parts); [exists ""|eexists; reflexivity].
  now rewrite append_nil_r.
Qed.

Lemma describe_key_head key remainder variant_main color tokens :
  Py.nonempty color = true ->
  exists rest,
    describe_key key remainder variant_main color tokens = color ++ rest.
Proof.
  intros Hc. unfold describe_key, with_variant.
  repeat match goal with
         | |- context [if (?k =? ?lit)%string then _ else _] =>
             destruct (k =? lit)%string
         end;
    first [ now apply join_filtered_head | eexists; reflexivity ].
Qed.

Lemma rstrip_cons c s :
  Py.is_space c = false -> Py.rstrip (String c s) = String c (Py.rstrip s).
Proof. intros Hc. simpl. rewrite Hc. now destruct (Py.rstrip s). Qed.

Lemma strip_black rest : exists rest', Py.strip ("Black" ++ rest) = "Black" ++ rest'.
Proof.
  exists (Py.rstrip rest). unfold Py.strip.
  change ("Black" ++ rest) with
    (String "B" (String "l" (String "a" (String "c" (String "k" rest))))).
  rewrite !rstrip_cons by reflexivity. reflexivity.
Qed.

Lemma describe_sampled_black filename :
  first_color_token (lower_name (parse_name filename)) = None ->
  exists rest, describe_sampled filename (0, 0, 0)%float = "Black" ++ rest.
Proof.
  intros Hname. rewrite (describe_sampled_perceptual _ _ Hname).
  change (abbreviate (classify_color (0, 0, 0)%float)) with "Black".
  destruct (describe_key_head (base_key (parse_name filename))
              (base_remainder (parse_name filename))
              (normalize_variant (base_variant (parse_name filename)))
              "Black" (parsed_tokens (parse_name filename)) eq_refl)
    as [rest ->].
  apply strip_black.
Qed.

(** C8. When no pixel of the cropped rectangle has an alpha above zero,
    [average_color] returns (0, 0, 0) and no error, [classify_color] names
    that triple Black, and a frame of that rectangle whose name holds no
    colour token gets a description that begins with Black. *)
Theorem transparent_frame_is_black `{lib : ImageLib} (image : Image)
    (rect : json) (x y w h : Z) (region : list pixel) :
  get_item "x" rect = Some (JInt x) ->
  get_item "y" rect = Some (JInt y) ->
  get_item "w" rect = Some (JInt w) ->
  get_item "h" rect = Some (JInt h) ->
  crop_data image (x, y, x + w, y + h)%Z = Some region ->
  (forall p, In p region -> (alpha p <= 0)%Z) ->
  average_color image rect = Some (0, 0, 0)%float /\
  classify_color (0, 0, 0)%float = "Black" /\
  forall filename frame,
    get_item "frame" frame = Some rect ->
    first_color_token (lower_name (parse_name filename)) = None ->
    detect_color (lower_name (parse_name filename))
                 (map fst (parsed_tokens (parse_name filename)))
                 (0, 0, 0)%float = "Black" /\
    exists rest,
      describe_frame filename frame image = Some ("Black" ++ rest).
Proof.
  intros Hx Hy Hw Hh Hcrop Hclear.
  assert (Havg : average_color image rect = Some (0, 0, 0)%float).
  { rewrite (average_color_region _ _ _ _ _ _ _ Hx Hy Hw Hh Hcrop).
    now rewrite average_of_transparent. }
  split; [exact Havg|]. split; [reflexivity|].
  intros filename frame Hrect Hname. split.
  - now rewrite (detect_color_perceptual _ _ _ Hname
                   (tokens_without_color _ Hname)).
  - rewrite (describe_frame_sampled _ _ _ _ _ Hrect Havg).
    destruct (describe_sampled_black filename Hname) as [rest ->].
    now exists rest.
Qed.

Lemma transparent_frame_is_black_witness :
  average_color (lib := raster_lib) clear (rect_json 3 3 2 2)
    = Some (0, 0, 0)%float /\
  classify_color (0, 0, 0)%float = "Black" /\
  exists rest,
    describe_frame (lib := raster_lib) "ufo.png"
                   (frame_json 3 3 2 2) clear = Some ("Black" ++ rest).
Proof.
  destruct (transparent_frame_is_black (lib := raster_lib) clear
              (rect_json 3 3 2 2) 3 3 2 2
              [(9, 9, 9, 0); (0, 0, 0, 0); (0, 0, 0, 0); (0, 0, 0, 0)]%Z
              eq_refl eq_refl eq_refl eq_refl eq_refl)
    as (Havg & Hblack & Hdesc).
  - intros p Hp. simpl in Hp.
    repeat (destruct Hp as [<-|Hp]; [simpl; lia|]). contradiction.
  - split; [exact Havg|]. split; [exact Hblack|].
    exact (proj2 (Hdesc "ufo.png" (frame_json 3 3 2 2) eq_refl eq_refl)).
Defined.

(** ** The run over the document *)

Section DictFacts.
Context {V : Type}.

Lemma dict_get_set_other (k k' : string) (v : V) d :
  k' <> k -> dict_get k' (dict_set k v d) = dict_get k' d.
Proof.
  intros Hne. induction d as [|[k0 v0] r IH]; simpl.
  - destruct (String.eqb_spec k' k); congruence.
  - destruct (String.eqb_spec k k0); simpl.
    + subst k0. destruct (String.eqb_spec k' k); congruence.
    + now rewrite IH.
Qed.

Lemma dict_get_set_same (k : string) (v : V) d :
  dict_get k (dict_set k v d) = Some v.
Proof.
  induction d as [|[k0 v0] r IH]; simpl.
  - now rewrite String.eqb_refl.
  - destruct (String.eqb_spec k k0) as [->|Hne]; simpl.
    + now rewrite String.eqb_refl.
    + destruct (String.eqb_spec k k0); [contradiction|exact IH].
Qed.

Lemma dict_keys_set (k : string) (v : V) d :
  dict_keys (dict_set k v d) = dict_keys d \/
  dict_keys (dict_set k v d) = (dict_keys d ++ [k])%list.
Proof.
  unfold dict_keys. induction d as [|[k0 v0] r IH]; simpl.
  - now right.
  - destruct (String.eqb k k0); simpl; [now left|].
    destruct IH as [-> | ->]; auto.
Qed.
End DictFacts.

Section Run.
Context `{lib : ImageLib}.

Lemma update_frames_cons image filename details rest frames' :
  update_frames image ((filename, details) :: rest) = Some frames' ->
  exists description fields rest',
    describe_frame filename details image = Some description /\
    details = JObj fields /\
    update_frames image rest = Some rest' /\
    frames' = (filename,
               JObj (dict_set "description" (JStr description) fields))
              :: rest'.
Proof.
  simpl.
  destruct (describe_frame filename details image) as [d|]; [|discriminate].
  destruct details; try discriminate.
  destruct (update_frames image rest) as [rest'|]; [|discriminate].
  intros [= <-]. now exists d, fields, rest'.
Qed.

Lemma update_frames_preserved image frames :
  forall frames',
    update_frames image frames = Some frames' ->
    Forall2 frame_preserved frames frames' /\
    Forall2 (described image) frames frames'.
Proof.
  induction frames as [|[filename details] rest IH]; intros frames'.
  - intros [= <-]. split; constructor.
  - intros (d & fields & rest' & Hd & -> & Hrest & ->)%update_frames_cons.
    destruct (IH _ Hrest) as [IH1 IH2].
    split; constructor; auto.
    + split; [reflexivity|]. exists fields, (dict_set "description" (JStr d) fields).
      repeat split; [|apply dict_keys_set].
      intros k Hk. now apply dict_get_set_other.
    + exists d. split; [exact Hd|]. simpl. apply dict_get_set_same.
Qed.

Lemma update_frames_total image frames :
  Forall (samplable image) frames ->
  exists frames', update_frames image frames = Some frames'.
Proof.
  induction 1 as [|[filename details] rest (rect & c & Hrect & Hc) _ [rest' IH]].
  - now exists [].
  - simpl in Hrect. simpl.
    rewrite (describe_frame_sampled _ _ _ _ _ Hrect Hc), IH.
    destruct details; try discriminate. eexists; reflexivity.
Qed.

Lemma preserved_keys frames frames' :
  Forall2 frame_preserved frames frames' ->
  dict_keys frames' = dict_keys frames.
Proof.
  unfold dict_keys. induction 1 as [|old new r r' [Hk _] _ IH]; simpl;
    congruence.
Qed.

(** C9. A run changes nothing but the [description] member of the frame
    records: the document that is written back has the members of the
    loaded one, with the same frame names in the same order under
    [frames], and in every frame record each member other than
    [description] (the [frame] rectangle among them) is as it was, while
    [description] is what [describe_frame] returns.  The run goes through
    when every frame has a rectangle that the sampler reads, and a
    document without [frames] is written back as it was. *)
Theorem main_changes_only_description (image : Image)
    (fields : list (string * json)) :
  (dict_get "frames" fields = None ->
   main (JObj fields) image = Some (JObj fields)) /\
  (forall frames,
     dict_get "frames" fields = Some (JObj frames) ->
     (Forall (samplable image) frames ->
      exists data', main (JObj fields) image = Some data') /\
     (forall data',
        main (JObj fields) image = Some data' ->
        exists frames',
          data' = JObj (dict_set "frames" (JObj frames') fields) /\
          (forall k, k <> "frames" ->
                     get_item k data' = get_item k (JObj fields)) /\
          get_item "frames" data' = Some (JObj frames') /\
          dict_keys frames' = dict_keys frames /\
          Forall2 frame_preserved frames frames' /\
          Forall2 (described image) frames frames')).
Proof.
  split; [simpl; now intros ->|].
  intros frames Hframes. split.
  - intros Hok. destruct (update_frames_total image frames Hok) as [frames' E].
    simpl. rewrite Hframes, E. eexists; reflexivity.
  - intros data'. simpl. rewrite Hframes.
    destruct (update_frames image frames) as [frames'|] eqn:E; [|discriminate].
    intros [= <-]. exists frames'.
    destruct (update_frames_preserved _ _ _ E) as [Hp Hd].
    split; [reflexivity|].
    split; [intros k Hk; simpl; now apply dict_get_set_other|].
    split; [simpl; apply dict_get_set_same|].
    split; [now apply preserved_keys|]. now split.
Qed.
End Run.

Lemma main_changes_only_description_witness :
  (exists data', main (lib := raster_lib) sample_document (plain 128 128 128)
                 = Some data') /\
  exists frames',
    get_item "frames"
      (JObj
         [("frames",
           JObj
             [("ufoRed.png",
               JObj [("frame", rect_json 0 0 2 2); ("rotated", JBool false);
                     ("description", JStr "Red ufo saucer")]);
              ("meteorBig_07",
               JObj [("description", JStr "Grey big meteor");
                     ("frame", rect_json 1 1 2 2)])]);
          ("meta", JObj [("scale", JStr "1")])])
    = Some (JObj frames') /\
    dict_keys frames' = ["ufoRed.png"; "meteorBig_07"] /\
    Forall2 frame_preserved
      [("ufoRed.png",
        JObj [("frame", rect_json 0 0 2 2); ("rotated", JBool false)]);
       ("meteorBig_07",
        JObj [("description", JStr "old"); ("frame", rect_json 1 1 2 2)])]
      frames'.
Proof.
  pose proof (proj2 (main_changes_only_description (lib := raster_lib)
                       (plain 128 128 128)
                       [("frames",
                         JObj
                           [("ufoRed.png",
                             JObj [("frame", rect_json 0 0 2 2);
                                   ("rotated", JBool false)]);
                            ("meteorBig_07",
                             JObj [("description", JStr "old");
                                   ("frame", rect_json 1 1 2 2)])]);
                        ("meta", JObj [("scale", JStr "1")])])
                    _ eq_refl) as [Hrun Hkeep].
  split.
  - apply Hrun. repeat constructor.
    + exists (rect_json 0 0 2 2), (128, 128, 128)%float.
      split; vm_compute; reflexivity.
    + exists (rect_json 1 1 2 2), (128, 128, 128)%float.
      split; vm_compute; reflexivity.
  - destruct (Hkeep _ eq_refl) as (frames' & _ & _ & Hget & Hkeys & Hp & _).
    exists frames'. repeat split; assumption.
Defined.

(** * Further properties of the script *)

(** ** The parser *)

Lemma split_trailing_digits_digits s :
  Py.all_chars Py.is_digit (snd (Py.split_trailing_digits s)) = true.
Proof.
  induction s as [|c r IH]; simpl; [reflexivity|].
  destruct (Py.split_trailing_digits r) as [h d]; simpl in IH.
  destruct h; [destruct (Py.is_digit c) eqn:Hc|]; simpl; auto.
  now rewrite Hc.
Qed.


Lemma digits_of_shape part :
  digits_of part = snd (Py.split_trailing_digits (fst (Py.chomp_lf part))).
Proof.
  unfold digits_of, Py.search_trailing_digits, Py.match_trailing_digits.
  destruct (Py.chomp_lf part) as [body tail]; simpl.
  destruct (Py.split_trailing_digits body) as [h d]; simpl.
  now destruct d.
Qed.

Lemma digits_of_digits part : Py.all_chars Py.is_digit (digits_of part) = true.
Proof. rewrite digits_of_shape. apply split_trailing_digits_digits. Qed.

(** X1. The variant that [extract_base] and [split_token] cut off is always
    a string of decimal digits, so [normalize_variant] gives a string of
    digits too: nothing for no digits, the decimal form without leading
    zeros for up to 4300 digits, and the digits as they are beyond that. *)
Theorem variant_is_a_number (part : string) :
  Py.all_chars Py.is_digit (digits_of part) = true /\
  snd (split_token part) = digits_of part /\
  snd (extract_base part) = digits_of part /\
  normalize_variant (digits_of part)
  = match digits_of part with
    | EmptyString => ""
    | d => if (Py.digit_count d <=? Py.max_str_digits)%N
           then canonical_decimal d else d
    end.
Proof.
  split; [apply digits_of_digits|]. split; [reflexivity|].
  split; [unfold extract_base; now destruct (find _ _)|].
  pose proof (digits_of_digits part) as Hd.
  destruct (digits_of part) as [|c r] eqn:E; [reflexivity|]. cbv zeta.
  destruct (N.leb_spec (Py.digit_count (String c r)) Py.max_str_digits).
  - apply normalize_digits; [exact Hd|discriminate|assumption].
  - now apply normalize_long_digits.
Qed.


(** X3. [extract_base] loses nothing: the key and the remainder put together
    are the lowercase letters of the segment and the variant is its final
    digits; the key is either a known key that no known key the letters
    start with is longer than, or, when the letters start with no known key,
    the letters themselves with an empty remainder. *)
Theorem extract_base_decomposes (part : string) :
  exists key remainder,
    extract_base part = (key, remainder, digits_of part) /\
    key ++ remainder = letters_of part /\
    ((In key (dict_keys BASE_TYPE_MAP) /\
      forall k, In k (dict_keys BASE_TYPE_MAP) ->
                Py.startswith (letters_of part) k = true ->
                String.length k <= String.length key) \/
     (key = letters_of part /\ remainder = "" /\
      forall k, In k (dict_keys BASE_TYPE_MAP) ->
                Py.startswith (letters_of part) k = false)).
Proof.
  unfold extract_base.
  destruct (find (Py.startswith (letters_of part)) base_candidates)
    as [key|] eqn:E.
  - exists key, (Py.drop (String.length key) (letters_of part)).
    destruct (find_some _ _ E) as [Hkey Hpre].
    split; [reflexivity|]. split; [symmetry; now apply prefix_split|].
    left. split; [exact (proj1 (sorted_by_len_desc_In _ _) Hkey)|].
    intros k Hk Hs.
    apply (find_longest _ _ _ (sorted_by_len_desc_sorted _) E);
      [exact (proj2 (sorted_by_len_desc_In _ _) Hk) | exact Hs].
  - exists (letters_of part), "". split; [reflexivity|].
    split; [apply append_nil_r|]. right. repeat split.
    intros k Hk. apply (find_none _ _ E).
    exact (proj2 (sorted_by_len_desc_In _ _) Hk).
Qed.

Lemma extract_base_decomposes_witness :
  exists key remainder,
    extract_base "meteorBrown2" = (key, remainder, digits_of "meteorBrown2") /\
    key ++ remainder = letters_of "meteorBrown2" /\
    ((In key (dict_keys BASE_TYPE_MAP) /\
      forall k, In k (dict_keys BASE_TYPE_MAP) ->
                Py.startswith (letters_of "meteorBrown2") k = true ->
                String.length k <= String.length key) \/
     (key = letters_of "meteorBrown2" /\ remainder = "" /\
      forall k, In k (dict_keys BASE_TYPE_MAP) ->
                Py.startswith (letters_of "meteorBrown2") k = false)).
Proof. exact (extract_base_decomposes "meteorBrown2"). Defined.

Lemma contains_dot_append r ext :
  Py.contains "." (r ++ String "." ext) = true.
Proof.
  induction r as [|c r IH]; rewrite contains_unfold; cbn [append].
  - pose proof (prefix_append "." ext) as H. cbn [append] in H. now rewrite H.
  - rewrite IH. apply orb_true_r.
Qed.

Lemma rsplit1_head_extension s ext :
  Py.contains "." ext = false ->
  Py.rsplit1_head "." (s ++ String "." ext) = s.
Proof.
  intros Hext. induction s as [|c r IH]; simpl.
  - now rewrite Hext.
  - rewrite contains_dot_append, IH. simpl. now rewrite andb_false_r.
Qed.

Lemma rsplit1_head_plain s :
  Py.contains "." s = false -> Py.rsplit1_head "." s = s.
Proof.
  induction s as [|c r IH]; [reflexivity|].
  rewrite contains_unfold. intros [Hp Hr]%orb_false_elim.
  simpl. rewrite (IH Hr).
  destruct (Ascii.eqb_spec c "."); [subst c|reflexivity].
  pose proof (prefix_append "." r) as H. cbn [append] in H. congruence.
Qed.

(** X4. The extension of a file name plays no part: a name without a dot
    and the same name followed by a dot and an extension without a dot are
    parsed and described alike, whatever the sampled colour. *)
Theorem extension_is_ignored (name ext : string) (c : rgb) :
  Py.contains "." name = false ->
  Py.contains "." ext = false ->
  parse_name (name ++ String "." ext) = parse_name name /\
  describe_sampled (name ++ String "." ext) c = describe_sampled name c.
Proof.
  intros Hname Hext.
  assert (Hp : parse_name (name ++ String "." ext) = parse_name name).
  { unfold parse_name.
    now rewrite (rsplit1_head_extension _ _ Hext), (rsplit1_head_plain _ Hname). }
  split; [exact Hp|]. unfold describe_sampled. now rewrite Hp.
Qed.

Lemma extension_is_ignored_witness :
  parse_name "ufoRed.png" = parse_name "ufoRed" /\
  describe_sampled "ufoRed.png" (30, 60, 200)%float
  = describe_sampled "ufoRed" (30, 60, 200)%float.
Proof.
  apply (extension_is_ignored "ufoRed" "png"); reflexivity.
Defined.

(** ** The colour *)

Lemma detect_color_by_name filename c :
  detect_color (lower_name (parse_name filename))
               (map fst (parsed_tokens (parse_name filename))) c
  = match first_color_token (lower_name (parse_name filename)) with
    | Some color_token => color_label color_token
    | None => classify_color c
    end.
Proof.
  unfold detect_color.
  destruct (first_color_token (lower_name (parse_name filename))) eqn:E;
    [reflexivity|].
  now rewrite (tokens_without_color _ E).
Qed.

(** X5. The second scan of [detect_color], over the letters of the tokens,
    never decides: the letters of every token of a frame name occur in the
    lowercase name, so for the arguments [describe_frame] passes the result
    is the one the name alone gives, the label of its first colour token or
    else the classified sample. *)
Theorem token_scan_is_redundant (filename : string) (c : rgb) :
  detect_color (lower_name (parse_name filename))
               (map fst (parsed_tokens (parse_name filename))) c
  = match first_color_token (lower_name (parse_name filename)) with
    | Some color_token => color_label color_token
    | None => classify_color c
    end.
Proof. apply detect_color_by_name. Qed.

Lemma classify_hsv_names hue s v :
  (s <? 0.22)%float = true /\ In (classify_hsv hue s v) grey_shades \/
  (s <? 0.22)%float = false /\ In (classify_hsv hue s v) hue_names.
Proof.
  unfold classify_hsv.
  destruct (s <? 0.22)%float; [left|right]; (split; [reflexivity|]);
    repeat match goal with
           | |- context [if ?b then _ else _] => destruct b
           end; simpl; tauto.
Qed.

Lemma classify_color_in_names c : In (classify_color c) classified_names.
Proof.
  unfold classify_color. destruct (is_black c); [now left|].
  destruct (hsv_of c) as [[hue s] v]. right. apply in_or_app.
  destruct (classify_hsv_names hue s v) as [[_ H]|[_ H]]; auto.
Qed.

(** X6. When [classify_color] returns, which it does unless [colorsys]
    raises a ZeroDivisionError, it returns one of fourteen names and nothing
    else: Black for a black triple, a grey shade when the saturation is
    below 0.22, and a hue name otherwise. *)
Theorem classify_color_checked_names (c : rgb) (name : string) :
  classify_color_checked c = Some name ->
  In name classified_names /\
  classify_color c = name /\
  (is_black c = true -> name = "Black") /\
  (is_black c = false ->
   exists hue s v,
     hsv_of_checked c = Some (hue, s, v) /\
     ((s <? 0.22)%float = true -> In name grey_shades) /\
     ((s <? 0.22)%float = false -> In name hue_names)).
Proof.
  intros Hc. pose proof (classify_color_checked_value _ _ Hc) as Hv.
  split; [rewrite <- Hv; apply classify_color_in_names|].
  split; [exact Hv|].
  unfold classify_color_checked in Hc.
  destruct (is_black c).
  - split; [intros _; congruence|discriminate].
  - split; [discriminate|]. intros _.
    destruct (hsv_of_checked c) as [[[hue s] v]|]; [|discriminate].
    injection Hc as <-. exists hue, s, v. split; [reflexivity|].
    destruct (classify_hsv_names hue s v) as [[E H]|[E H]]; rewrite E;
      split; intros; (discriminate || assumption).
Qed.

Lemma classify_color_checked_names_witness :
  In "Blue" classified_names /\
  classify_color (30, 60, 200)%float = "Blue" /\
  (is_black (30, 60, 200)%float = true -> "Blue" = "Black") /\
  (is_black (30, 60, 200)%float = false ->
   exists hue s v,
     hsv_of_checked (30, 60, 200)%float = Some (hue, s, v) /\
     ((s <? 0.22)%float = true -> In "Blue" grey_shades) /\
     ((s <? 0.22)%float = false -> In "Blue" hue_names)).
Proof.
  apply (classify_color_checked_names (30, 60, 200)%float "Blue").
  vm_compute. reflexivity.
Defined.

Lemma max3_same a : Flt.max3 a a a = a.
Proof.
  unfold Flt.max3. cbv zeta.
  repeat match goal with
         | |- context [if ?b then _ else _] => destruct b
         end; reflexivity.
Qed.

Lemma min3_same a : Flt.min3 a a a = a.
Proof.
  unfold Flt.min3. cbv zeta.
  repeat match goal with
         | |- context [if ?b then _ else _] => destruct b
         end; reflexivity.
Qed.

(** X7. A sample whose three channels are the same number is never given a
    hue: it is Black or one of the four grey shades. *)
Theorem equal_channels_are_grey (x : float) :
  (x / 255 =? x / 255)%float = true ->
  In (classify_color (x, x, x)) ("Black" :: grey_shades).
Proof.
  intros Hnum. unfold classify_color.
  destruct (is_black (x, x, x)); [now left|]. right.
  unfold hsv_of, Flt.rgb_to_hsv.
  rewrite max3_same, min3_same, Hnum.
  change (0 * 360)%float with 0%float.
  unfold classify_hsv.
  change (0 <? 0.22)%float with true. cbv iota.
  repeat match goal with
         | |- context [if ?b then _ else _] => destruct b
         end; simpl; tauto.
Qed.

Lemma equal_channels_are_grey_witness :
  In (classify_color (200, 200, 200)%float) ("Black" :: grey_shades).
Proof. apply (equal_channels_are_grey 200%float). reflexivity. Defined.

(** X8. The description depends on the sampled colour only through its
    classification, and not at all when the lowercase name holds a colour
    token. *)
Theorem description_and_sample (filename : string) (c1 c2 : rgb) :
  (classify_color c1 = classify_color c2 ->
   describe_sampled filename c1 = describe_sampled filename c2) /\
  (first_color_token (lower_name (parse_name filename)) <> None ->
   describe_sampled filename c1 = describe_sampled filename c2).
Proof.
  unfold describe_sampled. rewrite !detect_color_by_name.
  destruct (first_color_token (lower_name (parse_name filename))).
  - split; reflexivity.
  - split; [now intros ->|congruence].
Qed.

Lemma description_and_sample_witness :
  describe_sampled "enemyGreen3.png" (30, 60, 200)%float
  = describe_sampled "enemyGreen3.png" (200, 30, 30)%float /\
  describe_sampled "ufo.png" (30, 60, 200)%float
  = describe_sampled "ufo.png" (20, 50, 210)%float.
Proof.
  split.
  - apply (proj2 (description_and_sample "enemyGreen3.png" _ _)).
    vm_compute. discriminate.
  - apply (proj1 (description_and_sample "ufo.png" _ _)).
    vm_compute. reflexivity.
Defined.

(** every description begins with a colour word *)

Lemma first_color_token_In text t :
  first_color_token text = Some t -> In t COLOR_TOKENS.
Proof. intros H. exact (proj1 (find_some _ _ H)). Qed.

Lemma color_label_vocabulary t :
  In t COLOR_TOKENS -> In (abbreviate (color_label t)) color_vocabulary.
Proof.
  simpl. intros H.
  repeat (destruct H as [<-|H]; [vm_compute; tauto|]). contradiction.
Qed.

Lemma classified_vocabulary name :
  In name classified_names -> In (abbreviate name) color_vocabulary.
Proof.
  simpl. intros H.
  repeat (destruct H as [<-|H]; [vm_compute; tauto|]). contradiction.
Qed.

Lemma color_of_vocabulary filename c :
  In (color_of filename c) color_vocabulary.
Proof.
  unfold color_of. rewrite detect_color_by_name.
  destruct (first_color_token _) eqn:E.
  - apply color_label_vocabulary. exact (first_color_token_In _ _ E).
  - apply classified_vocabulary, classify_color_in_names.
Qed.

Lemma rstrip_keeps a rest :
  ends_solid a = true -> Py.rstrip (a ++ rest) = a ++ Py.rstrip rest.
Proof.
  induction a as [|c a IH]; [discriminate|].
  destruct a as [|c' a'].
  - simpl ends_solid. intros Hc%negb_true_iff. cbn [append].
    now apply rstrip_cons.
  - intros Ha. change (ends_solid (String c (String c' a')))
      with (ends_solid (String c' a')) in Ha.
    specialize (IH Ha). cbn [append] in *.
    change (Py.rstrip (String c (String c' (a' ++ rest))))
      with (match Py.rstrip (String c' (a' ++ rest)) with
            | EmptyString =>
                if Py.is_space c then EmptyString else String c EmptyString
            | t => String c t
            end).
    now rewrite IH.
Qed.

Lemma strip_keeps w rest :
  solid w = true -> Py.strip (w ++ rest) = w ++ Py.rstrip rest.
Proof.
  unfold solid. destruct w as [|c w]; [discriminate|].
  intros [Hc Hw]%andb_prop. apply negb_true_iff in Hc.
  unfold Py.strip. rewrite (rstrip_keeps _ _ Hw). cbn [append Py.lstrip].
  now rewrite Hc.
Qed.

Lemma color_vocabulary_solid : forallb solid color_vocabulary = true.
Proof. reflexivity. Qed.

(** X9. Every description begins with its colour, and the colour is one of
    eighteen words: a title-cased colour token of the name (Gray spelled
    Grey), or a classified name with Light and Dark shortened to Lt and
    Dk.  So no description is empty or starts with a blank. *)
Theorem description_starts_with_color (filename : string) (c : rgb) :
  In (color_of filename c) color_vocabulary /\
  exists rest, describe_sampled filename c = color_of filename c ++ rest.
Proof.
  pose proof (color_of_vocabulary filename c) as Hin.
  split; [exact Hin|].
  pose proof (proj1 (forallb_forall _ _) color_vocabulary_solid _ Hin) as Hs.
  unfold describe_sampled. fold (color_of filename c).
  destruct (describe_key_head (base_key (parse_name filename))
              (base_remainder (parse_name filename))
              (normalize_variant (base_variant (parse_name filename)))
              (color_of filename c) (parsed_tokens (parse_name filename)))
    as [rest ->].
  - unfold solid in Hs. now destruct (color_of filename c).
  - exists (Py.rstrip rest). now apply strip_keeps.
Qed.

(** ** The sampler *)

Lemma fold_left_add l a :
  fold_left Z.add l a = (a + fold_right Z.add 0 l)%Z.
Proof.
  revert a. induction l as [|x l IH]; intros a; simpl; [lia|].
  rewrite IH. lia.
Qed.

Lemma sum_channel_permutation ch l l' :
  Permutation l l' -> sum_channel ch l = sum_channel ch l'.
Proof.
  unfold sum_channel. rewrite !fold_left_add.
  induction 1; simpl; lia.
Qed.

Lemma mean_channel_permutation ch l l' :
  Permutation l l' -> mean_channel ch l = mean_channel ch l'.
Proof.
  intros Hp. unfold mean_channel.
  now rewrite (sum_channel_permutation ch _ _ Hp), (Permutation_length Hp).
Qed.

(** X10. The sampled colour is a function of the opaque pixels alone, and
    of them as a collection: two regions whose pixels of alpha above zero
    are the same up to their order have the same average, whatever their
    transparent pixels are. *)
Theorem average_of_opaque_pixels (region region' : list pixel) :
  Permutation (opaque_pixels region) (opaque_pixels region') ->
  average_of_region region = average_of_region region'.
Proof.
  intros Hp. unfold average_of_region.
  destruct (opaque_pixels region) as [|p l] eqn:E.
  - apply Permutation_nil in Hp. now rewrite Hp.
  - destruct (opaque_pixels region') as [|p' l'] eqn:E'.
    + apply Permutation_sym, Permutation_nil in Hp. discriminate.
    + now rewrite !(mean_channel_permutation _ _ _ Hp).
Qed.

Lemma average_of_opaque_pixels_witness :
  average_of_region [(10, 20, 30, 255); (9, 9, 9, 0); (30, 40, 50, 1)]%Z
  = average_of_region [(30, 40, 50, 1); (10, 20, 30, 255); (7, 7, 7, -1)]%Z.
Proof.
  apply average_of_opaque_pixels. simpl. apply perm_swap.
Defined.

Section Errors.
Context `{lib : ImageLib}.

(** X11. The sampler runs before the colour is chosen, so its errors are
    errors of [describe_frame] even when the name holds a colour token: a
    frame record without a [frame] member, a rectangle without one of [x],
    [y], [w], [h], or a crop that the imaging library refuses gives no
    description. *)
Theorem describe_frame_needs_rectangle (filename : string) (frame : json)
    (image : Image) :
  (get_item "frame" frame = None ->
   describe_frame filename frame image = None) /\
  (forall rect,
     get_item "frame" frame = Some rect ->
     (get_item "x" rect = None \/ get_item "y" rect = None \/
      get_item "w" rect = None \/ get_item "h" rect = None) ->
     describe_frame filename frame image = None) /\
  (forall rect x y w h,
     get_item "frame" frame = Some rect ->
     get_item "x" rect = Some (JInt x) ->
     get_item "y" rect = Some (JInt y) ->
     get_item "w" rect = Some (JInt w) ->
     get_item "h" rect = Some (JInt h) ->
     crop_data image (x, y, x + w, y + h)%Z = None ->
     describe_frame filename frame image = None).
Proof.
  unfold describe_frame, average_color. split; [now intros ->|]. split.
  - intros rect -> H.
    destruct (get_item "x" rect) as [jx|]; [|reflexivity].
    destruct (as_int jx); [|reflexivity].
    destruct (get_item "y" rect) as [jy|]; [|reflexivity].
    destruct (as_int jy); [|reflexivity].
    destruct (get_item "w" rect) as [jw|]; [|reflexivity].
    destruct (as_int jw); [|reflexivity].
    destruct (get_item "h" rect) as [jh|]; [|reflexivity].
    destruct H as [H|[H|[H|H]]]; discriminate.
  - intros rect x y w h -> -> -> -> -> Hcrop. simpl. now rewrite Hcrop.
Qed.

Lemma update_frames_aborts image frames entry :
  In entry frames ->
  describe_frame (fst entry) (snd entry) image = None ->
  update_frames image frames = None.
Proof.
  induction frames as [|[filename details] rest IH]; [contradiction|].
  intros [<-|Hin] Hnone; simpl in *.
  - now rewrite Hnone.
  - destruct (describe_frame filename details image); [|reflexivity].
    destruct details; try reflexivity.
    now rewrite (IH Hin Hnone).
Qed.

(** X12. A run is all or nothing: when [describe_frame] fails on one frame
    of the document, [main] fails and writes no document, whatever the
    other frames are. *)
Theorem main_all_or_nothing (image : Image) (fields : list (string * json))
    (frames : list (string * json)) (entry : string * json) :
  dict_get "frames" fields = Some (JObj frames) ->
  In entry frames ->
  describe_frame (fst entry) (snd entry) image = None ->
  main (JObj fields) image = None.
Proof.
  intros Hframes Hin Hnone. simpl. rewrite Hframes.
  now rewrite (update_frames_aborts _ _ _ Hin Hnone).
Qed.

Lemma dict_set_idem {V : Type} (k : string) (v : V) d :
  dict_set k v (dict_set k v d) = dict_set k v d.
Proof.
  induction d as [|[k0 v0] r IH]; simpl.
  - now rewrite String.eqb_refl.
  - destruct (String.eqb k k0) eqn:E; simpl; rewrite E; [reflexivity|].
    now rewrite IH.
Qed.

Lemma describe_frame_updated filename fields description description' image :
  describe_frame filename (JObj fields) image = Some description ->
  describe_frame filename
    (JObj (dict_set "description" (JStr description') fields)) image
  = Some description.
Proof.
  unfold describe_frame. simpl.
  rewrite dict_get_set_other by discriminate. exact (fun H => H).
Qed.

Lemma update_frames_again image frames :
  forall frames',
    update_frames image frames = Some frames' ->
    update_frames image frames' = Some frames'.
Proof.
  induction frames as [|[filename details] rest IH]; intros frames'.
  - now intros [= <-].
  - intros (d & fields & rest' & Hd & -> & Hrest & ->)%update_frames_cons.
    simpl. rewrite (describe_frame_updated _ _ _ d _ Hd), (IH _ Hrest).
    now rewrite dict_set_idem.
Qed.

(** X13. A second run changes nothing: on the document that a run writes
    back, [main] succeeds and writes the same document. *)
Theorem main_is_idempotent (data data' : json) (image : Image) :
  main data image = Some data' -> main data' image = Some data'.
Proof.
  destruct data as [| | | | | |fields]; try discriminate.
  simpl. destruct (dict_get "frames" fields) as [j|] eqn:E.
  - destruct j as [| | | | | |frames]; try discriminate.
    destruct (update_frames image frames) as [frames'|] eqn:Eu; [|discriminate].
    intros [= <-]. simpl. rewrite dict_get_set_same.
    rewrite (update_frames_again _ _ _ Eu). now rewrite dict_set_idem.
  - intros [= <-]. simpl. now rewrite E.
Qed.

End Errors.

Lemma describe_frame_needs_rectangle_witness :
  describe_frame (lib := raster_lib) "ufoRed.png"
    (JObj [("rotated", JBool false)]) (plain 1 2 3) = None /\
  describe_frame (lib := raster_lib) "ufoRed.png"
    (JObj [("frame", JObj [("x", JInt 0); ("y", JInt 0); ("w", JInt 2)])])
    (plain 1 2 3) = None /\
  describe_frame (lib := raster_lib) "ufoRed.png" (frame_json 0 0 (-2) 2)
    (plain 1 2 3) = None.
Proof.
  split; [|split].
  - apply (proj1 (describe_frame_needs_rectangle (lib := raster_lib) _ _ _)).
    reflexivity.
  - apply (proj1 (proj2 (describe_frame_needs_rectangle
                           (lib := raster_lib) _ _ _))
             (JObj [("x", JInt 0); ("y", JInt 0); ("w", JInt 2)]));
      [reflexivity|]. right. right. right. reflexivity.
  - apply (proj2 (proj2 (describe_frame_needs_rectangle
                           (lib := raster_lib) _ _ _))
             (rect_json 0 0 (-2) 2) 0 0 (-2) 2)%Z; reflexivity.
Defined.

Lemma main_all_or_nothing_witness :
  main (lib := raster_lib)
    (JObj [("frames",
            JObj [("ufoRed.png", frame_json 0 0 2 2);
                  ("ufoBlue.png", JObj [("rotated", JBool false)])])])
    (plain 1 2 3) = None.
Proof.
  apply (main_all_or_nothing (lib := raster_lib) (plain 1 2 3) _
           [("ufoRed.png", frame_json 0 0 2 2);
            ("ufoBlue.png", JObj [("rotated", JBool false)])]
           ("ufoBlue.png", JObj [("rotated", JBool false)])).
  - reflexivity.
  - simpl. tauto.
  - reflexivity.
Defined.

Lemma main_is_idempotent_witness :
  exists data',
    main (lib := raster_lib) sample_document (plain 128 128 128) = Some data' /\
    main (lib := raster_lib) data' (plain 128 128 128) = Some data'.
Proof.
  eexists. split; [vm_compute; reflexivity|].
  apply (main_is_idempotent (lib := raster_lib) sample_document).
  vm_compute. reflexivity.
Defined.

(** ** The dispatch *)

(** X14. A base key that is not a key of [BASE_TYPE_MAP] is described by the
    last branch alone: the colour, the key itself with "playership" spelled
    "player ship" and stripped, and the variant fragment; the label table
    plays no part. *)
Theorem unknown_key_description (key remainder variant_main color : string)
    (tokens : list (string * string)) :
  dict_mem key BASE_TYPE_MAP = false ->
  describe_key key remainder variant_main color tokens
  = Py.join_filtered " "
      [color; Py.strip (Py.replace "playership" "player ship" key);
       joined_variant variant_main ""].
Proof.
  unfold dict_mem, describe_key. simpl dict_get. intros H.
  repeat match type of H with
         | context [String.eqb key ?lit] =>
             destruct (String.eqb key lit); [discriminate H|]
         end.
  reflexivity.
Qed.

Lemma unknown_key_description_witness :
  describe_key "xplayership" "" "2" "Red" []
  = Py.join_filtered " " ["Red"; "xplayer ship"; "v2"].
Proof.
  apply (unknown_key_description "xplayership" "" "2" "Red" []). reflexivity.
Defined.

Lemma in_list_In s l : in_list s l = false -> ~ In s l.
Proof.
  unfold in_list. intros H Hin.
  assert (existsb (String.eqb s) l = true); [|congruence].
  apply existsb_exists. exists s. split; [exact Hin|apply String.eqb_refl].
Qed.

Lemma in_list_true s l : in_list s l = true -> In s l.
Proof.
  unfold in_list. intros (x & Hin & Heq)%existsb_exists.
  apply String.eqb_eq in Heq. now subst.
Qed.

Lemma no_flavor (t : string * string) :
  Py.nonempty (fst t) && negb (in_list (fst t) COLOR_TOKENS) = false ->
  fst t = "" \/ In (fst t) COLOR_TOKENS.
Proof.
  intros [H|H]%andb_false_iff.
  - left. now destruct (fst t).
  - right. apply in_list_true. now apply negb_false_iff.
Qed.

(** X15. The flavour of a powerup description is never empty and never a
    colour token: it is the letters of the first token whose letters are
    neither empty nor exactly a colour token, every token before it having
    such letters, or "orb" when every token has. *)
Theorem powerup_flavor (remainder variant_main color : string)
    (tokens : list (string * string)) :
  exists flavor,
    describe_key "powerup" remainder variant_main color tokens
    = color ++ " " ++ flavor ++ " powerup" /\
    flavor <> "" /\ ~ In flavor COLOR_TOKENS /\
    ((exists earlier t later,
        tokens = (earlier ++ t :: later)%list /\ flavor = fst t /\
        forall u, In u earlier -> fst u = "" \/ In (fst u) COLOR_TOKENS) \/
     (flavor = "orb" /\
      forall u, In u tokens -> fst u = "" \/ In (fst u) COLOR_TOKENS)).
Proof.
  change (describe_key "powerup" remainder variant_main color tokens)
    with (color ++ " " ++
          next_of (fun t => Py.nonempty (fst t)
                            && negb (in_list (fst t) COLOR_TOKENS))
                  fst tokens "orb" ++ " powerup").
  unfold next_of.
  destruct (find _ tokens) as [t|] eqn:E.
  - exists (fst t).
    destruct (find_first _ _ _ E)
      as (earlier & later & Hsplit & [Hne Hc]%andb_prop & Hpre).
    split; [reflexivity|]. split; [now destruct (fst t)|].
    split; [apply in_list_In; now apply negb_true_iff|].
    left. exists earlier, t, later. repeat split; [exact Hsplit|].
    intros u Hu. apply no_flavor. now apply Hpre.
  - exists "orb". split; [reflexivity|]. split; [discriminate|].
    split; [apply in_list_In; reflexivity|].
    right. split; [reflexivity|].
    intros u Hu. apply no_flavor. exact (find_none _ _ E _ Hu).
Qed.

Lemma powerup_flavor_witness :
  exists flavor,
    describe_key "powerup" "" "" "Blue"
      [("blue", ""); ("", "3"); ("bolt", ""); ("star", "")]
    = "Blue" ++ " " ++ flavor ++ " powerup" /\
    flavor <> "" /\ ~ In flavor COLOR_TOKENS /\
    ((exists earlier t later,
        [("blue", ""); ("", "3"); ("bolt", ""); ("star", "")]
        = (earlier ++ t :: later)%list /\ flavor = fst t /\
        forall u, In u earlier -> fst u = "" \/ In (fst u) COLOR_TOKENS) \/
     (flavor = "orb" /\
      forall u,
        In u [("blue", ""); ("", "3"); ("bolt", ""); ("star", "")] ->
        fst u = "" \/ In (fst u) COLOR_TOKENS)).
Proof.
  exact (powerup_flavor "" "" "Blue"
           [("blue", ""); ("", "3"); ("bolt", ""); ("star", "")]).
Defined.
